(** * fetch_news.py: trending-news aggregation

    A shallow embedding of [skills/news-daily/scripts/fetch_news.py].

    - Python values (the JSON documents the program navigates) are the
      inductive type [pyval]; the dynamic operations the program applies to
      them ([x[k]], [x.get(k, d)], [k in x], iteration, truthiness) are
      written out with the exceptions Python raises on the wrong shape.
    - Effects (the HTTP requests, the clock, the lines printed) are threaded
      through a state-and-exception monad [M]; state changes made before an
      exception is raised are kept, as in Python.
    - The libraries the program calls ([requests], [bs4]/[lxml]) are not part
      of the program: they are Section variables ([http], [soup_of_str],
      [select], ...). *)

From Stdlib Require Import String Ascii List ZArith Bool Lia Floats DecimalString.
Import ListNotations.
Local Open Scope string_scope.
Local Open Scope list_scope.

(* ================================================================== *)
(** ** Python values *)

#[warning="-register-all"]
Inductive pyval : Type :=
| PNone
| PBool (b : bool)
| PInt (z : Z)
| PFloat (f : float)
| PStr (s : string)
| PList (l : list pyval)
| PDict (d : list (string * pyval)).

(** The exceptions the program can meet; all are subclasses of [Exception]. *)
Inductive exn : Type :=
| KeyError (key : string)
| TypeError
| AttributeError (attr : string)
| JSONDecodeError
| RequestException (msg : string)      (* raised by requests.get *)
| HTTPError (status : Z)               (* raised by raise_for_status *)
| Failed_to_fetch (url : pyval) (cause : exn)
| RetryError (last : exn).             (* tenacity, attempts exhausted *)

Definition result (A : Type) : Type := (exn + A)%type.

(** [bool(v)] *)
Definition truthy (v : pyval) : bool :=
  match v with
  | PNone => false
  | PBool b => b
  | PInt z => negb (z =? 0)%Z
  | PFloat f => negb (PrimFloat.eqb f 0%float)
  | PStr s => negb (s =? "")
  | PList l => match l with [] => false | _ :: _ => true end
  | PDict d => match d with [] => false | _ :: _ => true end
  end.

(** A dict keeps its insertion order; lookup finds the entry of a key. *)
Fixpoint dict_lookup (k : string) (d : list (string * pyval)) : option pyval :=
  match d with
  | [] => None
  | (k', v) :: rest => if k' =? k then Some v else dict_lookup k rest
  end.

(** [d[k] = v] on a dict: replace in place, or append a new entry. *)
Fixpoint dict_set (k : string) (v : pyval) (d : list (string * pyval))
  : list (string * pyval) :=
  match d with
  | [] => [(k, v)]
  | (k', v') :: rest =>
      if k' =? k then (k', v) :: rest else (k', v') :: dict_set k v rest
  end.

(** [needle in hay] for two strings. *)
Fixpoint str_contains (needle hay : string) : bool :=
  if String.prefix needle hay then true
  else match hay with
       | EmptyString => false
       | String _ rest => str_contains needle rest
       end.

(** [v == lit] for a string literal [lit]. *)
Definition py_eq_str (v : pyval) (lit : string) : bool :=
  match v with
  | PStr s => s =? lit
  | _ => false
  end.

(** [o[k]] for a string key [k]. *)
Definition py_getitem (o : pyval) (k : string) : result pyval :=
  match o with
  | PDict d => match dict_lookup k d with
               | Some v => inr v
               | None => inl (KeyError k)
               end
  | _ => inl TypeError
  end.

(** [o.get(k, dflt)]: only a dict has the method. *)
Definition py_get (o : pyval) (k : string) (dflt : pyval) : result pyval :=
  match o with
  | PDict d => inr (match dict_lookup k d with
                    | Some v => v
                    | None => dflt
                    end)
  | _ => inl (AttributeError "get")
  end.

(** [k in o] for a string literal [k]. *)
Definition py_contains (k : string) (o : pyval) : result bool :=
  match o with
  | PDict d => inr (match dict_lookup k d with Some _ => true | None => false end)
  | PList l => inr (existsb (fun v => py_eq_str v k) l)
  | PStr s => inr (str_contains k s)
  | _ => inl TypeError
  end.

Fixpoint chars_of (s : string) : list pyval :=
  match s with
  | EmptyString => []
  | String c rest => PStr (String c EmptyString) :: chars_of rest
  end.

(** The elements [for x in o] goes through. *)
Definition py_iter (o : pyval) : result (list pyval) :=
  match o with
  | PDict d => inr (map (fun kv => PStr (fst kv)) d)
  | PList l => inr l
  | PStr s => inr (chars_of s)
  | _ => inl TypeError
  end.

(** [o.items()] *)
Definition py_items (o : pyval) : result (list (string * pyval)) :=
  match o with
  | PDict d => inr d
  | _ => inl (AttributeError "items")
  end.

(** [o.copy()]: dicts and lists have it. *)
Definition py_copy (o : pyval) : result pyval :=
  match o with
  | PDict d => inr (PDict d)
  | PList l => inr (PList l)
  | _ => inl (AttributeError "copy")
  end.

(** [o[k] = v] for a string key [k]. *)
Definition py_setitem (o : pyval) (k : string) (v : pyval) : result pyval :=
  match o with
  | PDict d => inr (PDict (dict_set k v d))
  | _ => inl TypeError
  end.

(* ================================================================== *)
(** ** Python strings

    A [str] is modelled by a [string] whose characters are the code points
    below 256. *)

(** [str.isspace] on one character, which is also what [\s] matches. *)
Definition isspace (c : ascii) : bool :=
  let n := nat_of_ascii c in
  ((9 <=? n)%nat && (n <=? 13)%nat) || ((28 <=? n)%nat && (n <=? 32)%nat)
  || (n =? 133)%nat || (n =? 160)%nat.

Fixpoint lstrip (s : string) : string :=
  match s with
  | EmptyString => EmptyString
  | String c rest => if isspace c then lstrip rest else s
  end.

Fixpoint rstrip (s : string) : string :=
  match s with
  | EmptyString => EmptyString
  | String c rest =>
      let rest' := rstrip rest in
      if isspace c && (rest' =? "") then EmptyString else String c rest'
  end.

(** [s.strip()] *)
Definition strip (s : string) : string := lstrip (rstrip s).

(** [re.sub(r'\s+', ' ', s)]: [in_run] says that the previous character was
    whitespace, already replaced. *)
Fixpoint collapse (in_run : bool) (s : string) : string :=
  match s with
  | EmptyString => EmptyString
  | String c rest =>
      if isspace c
      then (if in_run then collapse true rest else String " " (collapse true rest))
      else String c (collapse false rest)
  end.

Definition re_sub_spaces (s : string) : string := collapse false s.

(** [s.replace("\n", "")] *)
Fixpoint remove_newlines (s : string) : string :=
  match s with
  | EmptyString => EmptyString
  | String c rest =>
      if (nat_of_ascii c =? 10)%nat then remove_newlines rest
      else String c (remove_newlines rest)
  end.

(** [s.startswith(p)] *)
Definition startswith (s p : string) : bool := String.prefix p s.

(* ================================================================== *)
(** ** Data model *)

Record NewsItem : Type := mkNewsItem {
  title : pyval;
  url : pyval;
  platform : string;
  platform_icon : pyval;
  raw_category : pyval;
  content : pyval;
  timestamp : option Z
}.

(** The attributes a source object holds besides those of [NewsSource]:
    [self.url], [self.endpoints], [self.params]. [Base] is a plain
    [NewsSource]. *)
Inductive source_variant : Type :=
| Base
| Zhihu (self_url : pyval)
| WallStreetCN (self_endpoints : pyval)
| Hupu (self_url : pyval)
| ThePaper (self_url : pyval)
| HackerNews (self_url : pyval)
| ProductHunt (self_url : pyval)
| GitHub (self_url : pyval)
| Sspai (self_url self_params : pyval).

Record NewsSource : Type := mkNewsSource {
  self_platform : string;
  self_name : pyval;
  self_icon : pyval;
  self_type : pyval;
  self_category : pyval;
  self_enabled : pyval;
  self_variant : source_variant
}.

Definition with_variant (self : NewsSource) (v : source_variant) : NewsSource :=
  mkNewsSource (self_platform self) (self_name self) (self_icon self)
               (self_type self) (self_category self) (self_enabled self) v.

(** [NewsItem(...)] as every source builds it: platform, icon and category
    are the source's. *)
Definition new_item (self : NewsSource) (title url content : pyval) (now : Z)
  : NewsItem :=
  mkNewsItem title url (self_platform self) (self_icon self)
             (self_category self) content (Some now).

(** What the program prints, line by line. *)
Inductive log_line : Type :=
| Unknown_platform (platform_id : string)
| Fetched_items (platform_id : string) (n : nat)
| Error_fetching_from (platform_id : string) (e : exn)
| Failed_to_fetch_endpoint (endpoint_key : string) (e : exn).

(** The world outside the program: the requests sent so far (url and
    params, oldest first), the clock, and the lines printed so far. *)
Record world : Type := mkWorld {
  requests_sent : list (pyval * pyval);
  clock : Z;
  stdout : list log_line
}.

Record response : Type := mkResponse {
  status_code : Z;
  json_body : option pyval;    (* the body parsed as JSON, when it is JSON *)
  text : string
}.

Inductive http_outcome : Type :=
| Raises (e : exn)
| Responds (r : response).

(* ================================================================== *)
(** ** The monad of effects *)

Definition M (A : Type) : Type := world -> result A * world.

Definition ret {A} (a : A) : M A := fun w => (inr a, w).

Definition raise {A} (e : exn) : M A := fun w => (inl e, w).

Definition bind {A B} (c : M A) (k : A -> M B) : M B :=
  fun w => match c w with
           | (inr a, w') => k a w'
           | (inl e, w') => (inl e, w')
           end.

(** [try: c  except Exception as e: h e] *)
Definition try_except {A} (c : M A) (h : exn -> M A) : M A :=
  fun w => match c w with
           | (inr a, w') => (inr a, w')
           | (inl e, w') => h e w'
           end.

Definition lift {A} (r : result A) : M A := fun w => (r, w).

Notation "x <- c ;; k" := (bind c (fun x => k))
  (at level 61, c at next level, right associativity).
Notation "c ;;; k" := (bind c (fun _ => k))
  (at level 61, right associativity).

(** [for x in xs: body], with the variables the body updates as [acc]. *)
Fixpoint for_ {X S} (xs : list X) (body : X -> S -> M S) (acc : S) : M S :=
  match xs with
  | [] => ret acc
  | x :: rest => acc' <- body x acc ;; for_ rest body acc'
  end.

(** [print(...)] *)
Definition print (l : log_line) : M unit :=
  fun w => (inr tt, mkWorld (requests_sent w) (clock w) (stdout w ++ [l])).

(** [datetime.now()] *)
Definition datetime_now : M Z := fun w => (inr (clock w), w).

(** [time.sleep(d)], as tenacity calls it between attempts. *)
Definition sleep (d : Z) : M unit :=
  fun w => (inr tt, mkWorld (requests_sent w) (clock w + d) (stdout w)).

Definition getitem (o : pyval) (k : string) : M pyval := lift (py_getitem o k).
Definition get (o : pyval) (k : string) (dflt : pyval) : M pyval :=
  lift (py_get o k dflt).
Definition contains (k : string) (o : pyval) : M bool := lift (py_contains k o).
Definition iter (o : pyval) : M (list pyval) := lift (py_iter o).

(* ================================================================== *)
(** ** The outside world of the examples

    Concrete networks, pages and configurations, on which the program is
    run in the examples that follow the theorems. *)

Module Fixture.

Definition w0 : world := mkWorld [] 1700000000 [].

(** A 200 response with a JSON body, and one with a body that is not JSON. *)
Definition json (v : pyval) : http_outcome := Responds (mkResponse 200 (Some v) "").
Definition page (s : string) : http_outcome := Responds (mkResponse 200 None s).
Definition server_error : http_outcome := Responds (mkResponse 500 None "").

Fixpoint route (table : list (string * http_outcome)) (u : string) : http_outcome :=
  match table with
  | [] => Raises (RequestException "connection refused")
  | (k, o) :: rest => if k =? u then o else route rest u
  end.

(** A network that answers by url, the same at every request. *)
Definition network (table : list (string * http_outcome))
  : nat -> pyval -> pyval -> http_outcome :=
  fun _ url _ =>
    match url with
    | PStr u => route table u
    | _ => Raises (RequestException "invalid url")
    end.

(** A network that is down for the first two requests of the run. *)
Definition flaky (r : response) : nat -> pyval -> pyval -> http_outcome :=
  fun n _ _ =>
    if (n <? 2)%nat then Raises (RequestException "timed out") else Responds r.

(** [str()] on the scalars the examples use; the texts of the other values
    are not modelled. *)
Definition str (v : pyval) : string :=
  match v with
  | PStr s => s
  | PInt z => NilZero.string_of_int (Z.to_int z)
  | PBool true => "True"
  | PBool false => "False"
  | PNone => "None"
  | _ => "?"
  end.

(** A parse tree reduced to what the queries of the program find in it:
    the text of a node, its attributes, and the nodes each selector
    matches under it. *)
#[warning="-register-all"]
Inductive node : Type :=
| Node (text : string) (attrs : list (string * string))
       (found : list (string * node)).

Definition node_text (n : node) : string := let 'Node t _ _ := n in t.

Definition select (selector : string) (n : node) : list node :=
  let 'Node _ _ found := n in
  map snd (filter (fun kv => fst kv =? selector) found).

Definition select_one (selector : string) (n : node) : option node :=
  match select selector n with
  | [] => None
  | m :: _ => Some m
  end.

Definition find_post_name (n : node) : option node := select_one "post-name" n.

Fixpoint attr (attrs : list (string * string)) (k : string) : option string :=
  match attrs with
  | [] => None
  | (k', v) :: rest => if k' =? k then Some v else attr rest k
  end.

Definition get_attr (n : node) (k : string) : option string :=
  let 'Node _ attrs _ := n in attr attrs k.

(** The pages the examples know, by their source text; any other string
    is taken as plain text. *)
Fixpoint soup_in (pages : list (string * node)) (s : string) : node :=
  match pages with
  | [] => Node s [] []
  | (k, n) :: rest => if k =? s then n else soup_in rest s
  end.

Definition soup_of_other (v : pyval) : result node := inl TypeError.

(** The Hacker News front page with one story, a self post: its link is
    relative. *)
Definition hn_page : node :=
  Node "" []
    [("tr.athing",
      Node "" []
        [("td.title span.titleline a",
          Node "Ask HN: What are you reading?" [("href", "item?id=1")] [])])].

(** A Hupu page with two posts: one with an empty title, and "Post A"
    linked to [/a]. *)
Definition hupu_page : node :=
  Node "" []
    [("li.bbs-sl-web-post-body",
      Node "" [] [("a.p-title", Node "" [("href", "/b")] [])]);
     ("li.bbs-sl-web-post-body",
      Node "" [] [("a.p-title", Node "Post A" [("href", "/a")] [])])].

Definition pages : list (string * node) :=
  [("<hn>", hn_page); ("<hupu>", hupu_page)].

Definition soup_of_str : string -> node := soup_in pages.

(** Records and responses. *)
Definition zhihu_record : pyval :=
  PDict [("target",
          PDict [("title_area", PDict [("text", PStr "Example")]);
                 ("url", PStr "http://x");
                 ("excerpt_area", PDict [("text", PStr "Body")])])].

Definition zhihu_untitled : pyval :=
  PDict [("target", PDict [("url", PStr "http://y")])].

Definition zhihu_response : pyval :=
  PDict [("data", PList [zhihu_untitled; zhihu_record])].

(** The same response with a null record in front. *)
Definition zhihu_response_null : pyval :=
  PDict [("data", PList [PNone; zhihu_record])].

Definition sspai_response : pyval :=
  PDict [("data",
          PList [PDict [("id", PInt 12345); ("title", PStr "First");
                        ("summary", PStr "S")];
                 PDict [("id", PInt 7)];
                 PDict [("title", PStr "Second")]])].

Definition news_response : pyval :=
  PDict [("data",
          PDict [("items",
                  PList [PDict [("article",
                                 PDict [("title", PStr "Rates");
                                        ("uri", PStr "https://w/1")])]])])].

Definition live_response : pyval :=
  PDict [("data",
          PDict [("items",
                  PList [PDict [("content", PStr " Markets   rally ")]])])].

Definition table : list (string * http_outcome) :=
  [("https://zhihu/hot", json zhihu_response);
   ("https://zhihu/null", json zhihu_response_null);
   ("https://sspai/feed", json sspai_response);
   ("https://wscn/live", json live_response);
   ("https://wscn/news", server_error);
   ("https://wscn/hot", json news_response);
   ("https://hn/", page "<hn>");
   ("https://hupu/", page "<hupu>");
   ("https://thepaper/", server_error)].

Definition http : nat -> pyval -> pyval -> http_outcome := network table.

(** Source configurations. *)
Definition source_config (type : string) (more : list (string * pyval)) : pyval :=
  PDict ([("name", PStr "n"); ("icon", PStr "i"); ("type", PStr type);
          ("category", PStr "c")] ++ more).

Definition endpoints : list (string * pyval) :=
  [("live", PDict [("url", PStr "https://wscn/live")]);
   ("news", PDict [("url", PStr "https://wscn/news");
                   ("params", PDict [("limit", PInt 20)])]);
   ("hot", PDict [("url", PStr "https://wscn/hot")])].

(** A configuration of seven platforms: three work, "thepaper" meets a
    server that fails, "hupu" lacks its url, "weibo" is unknown, "github"
    is disabled. *)
Definition platforms : list (string * pyval) :=
  [("zhihu", source_config "api" [("url", PStr "https://zhihu/hot")]);
   ("thepaper", source_config "api" [("url", PStr "https://thepaper/")]);
   ("hupu", source_config "html" []);
   ("weibo", source_config "api" [("url", PStr "https://weibo/")]);
   ("github", source_config "html" [("enabled", PBool false);
                                    ("url", PStr "https://github/")]);
   ("hackernews", source_config "html" [("url", PStr "https://hn/")]);
   ("sspai", source_config "api" [("url", PStr "https://sspai/feed")])].

Definition config : list (string * pyval) := [("platforms", PDict platforms)].

(** Sources, as their constructors build them. *)
Definition zhihu_source (u : string) : NewsSource :=
  mkNewsSource "zhihu" (PStr "n") (PStr "i") (PStr "api") (PStr "c")
               (PBool true) (Zhihu (PStr u)).

Definition sspai_source : NewsSource :=
  mkNewsSource "sspai" (PStr "n") (PStr "i") (PStr "api") (PStr "c")
               (PBool true) (Sspai (PStr "https://sspai/feed") (PDict [])).

Definition wallstreetcn_source : NewsSource :=
  mkNewsSource "wallstreetcn" (PStr "n") (PStr "i") (PStr "api") (PStr "c")
               (PBool true) (WallStreetCN (PDict endpoints)).

Definition html_source (id u : string) (v : pyval -> source_variant) : NewsSource :=
  mkNewsSource id (PStr "n") (PStr "i") (PStr "html") (PStr "c")
               (PBool true) (v (PStr u)).

(** The world after the requests [l], from [w0], [d] seconds later. *)
Definition sent (l : list (pyval * pyval)) (d : Z) : world :=
  mkWorld l (1700000000 + d) [].

(** More of the outside world, for the examples of the edges. *)

(** A network that is down for the first request of the run. *)
Definition down_once (r : response) : nat -> pyval -> pyval -> http_outcome :=
  fun n _ _ =>
    if (n <? 1)%nat then Raises (RequestException "timed out") else Responds r.

Definition thepaper_response : pyval :=
  PDict [("data",
          PDict [("hotNews",
                  PList [PDict [("name", PStr "Budget"); ("contId", PStr "123")];
                         PDict [("name", PStr "Weather")];
                         PDict [("contId", PStr "9")]])])].

Definition edge_table : list (string * http_outcome) :=
  [("https://zhihu/busy", json (PDict [("error", PStr "busy")]));
   ("https://zhihu/maintenance", page "<html>no data today</html>");
   ("https://thepaper/ok", json thepaper_response);
   ("https://thepaper/", server_error);
   ("https://zhihu/hot", json zhihu_response);
   ("https://hupu/", page "<hupu>");
   ("https://wscn/live", json live_response)].

Definition edge_http : nat -> pyval -> pyval -> http_outcome := network edge_table.

Definition thepaper_source : NewsSource :=
  mkNewsSource "thepaper" (PStr "n") (PStr "i") (PStr "api") (PStr "c")
               (PBool true) (ThePaper (PStr "https://thepaper/ok")).

(** Endpoints, the second of which has no url. *)
Definition endpoints_no_url : list (string * pyval) :=
  [("live", PDict [("url", PStr "https://wscn/live")]);
   ("news", PDict [("params", PDict [("limit", PInt 20)])]);
   ("hot", PDict [("url", PStr "https://wscn/hot")])].

(** Configurations: one where every platform is disabled, one where the
    entry of a platform is null, one where Zhihu is given the type
    "html". *)
Definition platforms_off : list (string * pyval) :=
  [("zhihu", source_config "api" [("enabled", PBool false);
                                  ("url", PStr "https://zhihu/hot")]);
   ("hupu", source_config "html" [("enabled", PInt 0)])].

Definition platforms_null : list (string * pyval) :=
  [("zhihu", source_config "api" [("url", PStr "https://zhihu/hot")]);
   ("hupu", PNone);
   ("sspai", source_config "api" [("url", PStr "https://sspai/feed")])].

Definition zhihu_as_html : list (string * pyval) :=
  [("name", PStr "n"); ("icon", PStr "i"); ("type", PStr "html");
   ("category", PStr "c"); ("url", PStr "https://zhihu/hot")].







End Fixture.

(** The text side of [bs4] on a fragment made of character data, tags and
    the character references [&lt;], [&gt;] and [&amp;]: the tree is the
    list of its text nodes, references decoded, tags left out. *)
Module Fragment.

Definition tag_start (c : ascii) : bool :=
  let n := nat_of_ascii c in
  ((65 <=? n)%nat && (n <=? 90)%nat) || ((97 <=? n)%nat && (n <=? 122)%nat)
  || (n =? 47)%nat || (n =? 33)%nat.

Definition push (s : string) (c : ascii) : string :=
  (s ++ String c EmptyString)%string.

(** [in_tag]: between [<] and [>]; [current]: the text node being read. *)
Fixpoint text_nodes (in_tag : bool) (current : string) (s : string) : list string :=
  match s with
  | EmptyString => if in_tag then [] else [current]
  | String c rest =>
      if in_tag then
        if Ascii.eqb c ">" then text_nodes false "" rest
        else text_nodes true current rest
      else if Ascii.eqb c "<"
                && match rest with
                   | String c' _ => tag_start c'
                   | EmptyString => false
                   end
      then current :: text_nodes true "" rest
      else if Ascii.eqb c "&" then
        match rest with
        | String "l" (String "t" (String ";" rest')) =>
            text_nodes false (push current "<") rest'
        | String "g" (String "t" (String ";" rest')) =>
            text_nodes false (push current ">") rest'
        | String "a" (String "m" (String "p" (String ";" rest'))) =>
            text_nodes false (push current "&") rest'
        | _ => text_nodes false (push current c) rest
        end
      else text_nodes false (push current c) rest
  end.

Definition soup_of_str (s : string) : list string := text_nodes false "" s.

Definition soup_of_other (v : pyval) : result (list string) := inl TypeError.

Fixpoint join (sep : string) (parts : list string) : string :=
  match parts with
  | [] => ""
  | [p] => p
  | p :: rest => (p ++ sep ++ join sep rest)%string
  end.

(** [soup.get_text(separator=" ", strip=True)]: the text nodes stripped,
    the empty ones dropped, the others joined by a space. *)
Definition get_text_sep_strip (nodes : list string) : string :=
  join " " (filter (fun t => negb (t =? "")) (map strip nodes)).

End Fragment.

(* ================================================================== *)
(** ** The program *)

Section Program.

(** *** What the program takes from outside *)

(** [requests.get]: what the n-th request of the run (counted from 0)
    meets, for its url and params. *)
Variable http : nat -> pyval -> pyval -> http_outcome.

(** Opening and parsing [../config/sources.json]. *)
Variable sources_json : result pyval.

(** [str(v)], as an f-string applies it. *)
Variable py_str : pyval -> string.

(** [bs4] with the [lxml] parser: the parse tree and the queries the
    program makes on it. *)
Variable element : Type.
Variable soup_of_str : string -> element.
Variable soup_of_other : pyval -> result element.
Variable select : string -> element -> list element.
Variable select_one : string -> element -> option element.
(** [post.find(attrs={"data-test": lambda x: x and x.startswith("post-name")})] *)
Variable find_post_name : element -> option element.
(** [tag.get_text(strip=True)] *)
Variable get_text_strip : element -> string.
(** [soup.get_text(separator=" ", strip=True)] *)
Variable get_text_sep_strip : element -> string.
(** [tag.get(name)] *)
Variable get_attr : element -> string -> option string.

(** *** Transport *)

Definition TIMEOUT : Z := 10.

Definition requests_get (url params : pyval) : M response :=
  fun w =>
    let w' := mkWorld (requests_sent w ++ [(url, params)]) (clock w) (stdout w) in
    match http (length (requests_sent w)) url params with
    | Raises e => (inl e, w')
    | Responds r => (inr r, w')
    end.

Definition raise_for_status (r : response) : M unit :=
  if (400 <=? status_code r)%Z && (status_code r <? 600)%Z
  then raise (HTTPError (status_code r))
  else ret tt.

Definition response_json (r : response) : M pyval :=
  match json_body r with
  | Some v => ret v
  | None => raise JSONDecodeError
  end.

(** The body of [fetch], one attempt. *)
Definition fetch_attempt (url params : pyval) : M pyval :=
  try_except
    (response <- requests_get url params ;;
     raise_for_status response ;;;
     try_except (response_json response)
                (fun _ => ret (PStr (text response))))
    (fun e => raise (Failed_to_fetch url e)).

(** [stop_after_attempt(3)] *)
Definition stop_after_attempt : Z := 3.

(** [wait_exponential(multiplier=1, min=2, max=10)], in seconds. *)
Definition wait_exponential (attempt_number : Z) : Z :=
  Z.max (Z.max 0 2) (Z.min (1 * 2 ^ (attempt_number - 1)) 10).

(** The [@retry] decorator: run the body again after an exception, until
    the stop condition holds; then raise [RetryError]. *)
Fixpoint retry {A} (fuel : nat) (attempt_number : Z) (body : M A) : M A :=
  try_except body
    (fun e =>
       if (attempt_number >=? stop_after_attempt)%Z then raise (RetryError e)
       else match fuel with
            | O => raise (RetryError e)
            | S fuel' =>
                sleep (wait_exponential attempt_number) ;;;
                retry fuel' (attempt_number + 1) body
            end).

Definition fetch (url params : pyval) : M pyval :=
  retry 3 1 (fetch_attempt url params).

(** *** Sanitizer *)

(** [BeautifulSoup(markup, "lxml")] *)
Definition BeautifulSoup (markup : pyval) : result element :=
  match markup with
  | PStr s => inr (soup_of_str s)
  | _ => soup_of_other markup
  end.

Definition strip_html (text : pyval) : result string :=
  if negb (truthy text) then inr ""
  else match BeautifulSoup text with
       | inl e => inl e
       | inr soup => inr (strip (re_sub_spaces (get_text_sep_strip soup)))
       end.

(** *** Sources *)

(** [NewsSource.__init__] *)
Definition NewsSource_init (platform_id : string) (config : pyval)
  : M NewsSource :=
  name <- getitem config "name" ;;
  icon <- getitem config "icon" ;;
  type <- getitem config "type" ;;
  category <- getitem config "category" ;;
  enabled <- get config "enabled" (PBool true) ;;
  ret (mkNewsSource platform_id name icon type category enabled Base).

Definition ZhihuSource (config : pyval) : M NewsSource :=
  self <- NewsSource_init "zhihu" config ;;
  u <- getitem config "url" ;;
  ret (with_variant self (Zhihu u)).

Definition WallStreetCNSource (config : pyval) : M NewsSource :=
  self <- NewsSource_init "wallstreetcn" config ;;
  e <- getitem config "endpoints" ;;
  ret (with_variant self (WallStreetCN e)).

Definition HupuSource (config : pyval) : M NewsSource :=
  self <- NewsSource_init "hupu" config ;;
  u <- getitem config "url" ;;
  ret (with_variant self (Hupu u)).

Definition ThePaperSource (config : pyval) : M NewsSource :=
  self <- NewsSource_init "thepaper" config ;;
  u <- getitem config "url" ;;
  ret (with_variant self (ThePaper u)).

Definition HackerNewsSource (config : pyval) : M NewsSource :=
  self <- NewsSource_init "hackernews" config ;;
  u <- getitem config "url" ;;
  ret (with_variant self (HackerNews u)).

Definition ProductHuntSource (config : pyval) : M NewsSource :=
  self <- NewsSource_init "producthunt" config ;;
  u <- getitem config "url" ;;
  ret (with_variant self (ProductHunt u)).

Definition GitHubSource (config : pyval) : M NewsSource :=
  self <- NewsSource_init "github" config ;;
  u <- getitem config "url" ;;
  ret (with_variant self (GitHub u)).

Definition SspaiSource (config : pyval) : M NewsSource :=
  self <- NewsSource_init "sspai" config ;;
  u <- getitem config "url" ;;
  p <- get config "params" (PDict []) ;;
  ret (with_variant self (Sspai u p)).

(** The body of the loop of [ZhihuSource._fetch_api]. *)
Definition Zhihu_record (self : NewsSource) (item : pyval) (items : list NewsItem)
  : M (list NewsItem) :=
  target <- get item "target" (PDict []) ;;
  title_area <- get target "title_area" (PDict []) ;;
  title <- get title_area "text" (PStr "") ;;
  if negb (truthy title) then ret items
  else
    url <- get target "url" (PStr "") ;;
    excerpt_area <- get target "excerpt_area" (PDict []) ;;
    content <- get excerpt_area "text" (PStr "") ;;
    now <- datetime_now ;;
    ret (items ++ [new_item self title url content now]).

(** [ZhihuSource._fetch_api] *)
Definition Zhihu_fetch_api (self : NewsSource) (self_url : pyval)
  : M (list NewsItem) :=
  data <- fetch self_url PNone ;;
  has_data <- contains "data" data ;;
  if has_data : bool then
    records <- getitem data "data" ;;
    records <- iter records ;;
    for_ records (Zhihu_record self) []
  else ret [].

(** The body of the loop of the "live" branch of [_parse_endpoint]. *)
Definition live_record (self : NewsSource) (item : pyval) (items : list NewsItem)
  : M (list NewsItem) :=
  content <- get item "content" (PStr "") ;;
  if negb (truthy content) then ret items
  else
    content <- lift (strip_html content) ;;
    if content =? "" then ret items
    else
      now <- datetime_now ;;
      ret (items ++ [new_item self (PStr content) (PStr "") (PStr "") now]).

(** The body of the loop of the "news" branch of [_parse_endpoint]; the
    "hot" branch is the same text. *)
Definition article_record (self : NewsSource) (item : pyval) (items : list NewsItem)
  : M (list NewsItem) :=
  article <- get item "article" PNone ;;
  if negb (truthy article) then ret items
  else
    title <- get article "title" (PStr "") ;;
    if negb (truthy title) then ret items
    else
      uri <- get article "uri" (PStr "") ;;
      now <- datetime_now ;;
      ret (items ++ [new_item self title uri (PStr "") now]).

(** [WallStreetCNSource._parse_endpoint] *)
Definition WallStreetCN_parse_endpoint (self : NewsSource)
    (endpoint_key : string) (data : pyval) : M (list NewsItem) :=
  has_data <- contains "data" data ;;
  no_items <- (if has_data : bool
               then d <- getitem data "data" ;;
                    has_items <- contains "items" d ;;
                    ret (negb has_items)
               else ret true) ;;
  if no_items : bool then ret []
  else if endpoint_key =? "live" then
    d <- getitem data "data" ;;
    records <- getitem d "items" ;;
    records <- iter records ;;
    for_ records (live_record self) []
  else if endpoint_key =? "news" then
    d <- getitem data "data" ;;
    records <- getitem d "items" ;;
    records <- iter records ;;
    for_ records (article_record self) []
  else if endpoint_key =? "hot" then
    d <- getitem data "data" ;;
    records <- getitem d "items" ;;
    records <- iter records ;;
    for_ records (article_record self) []
  else ret [].

(** The body of the loop of [WallStreetCNSource._fetch_api]. *)
Definition endpoint_step (self : NewsSource) (entry : string * pyval)
    (items : list NewsItem) : M (list NewsItem) :=
  let '(endpoint_key, endpoint_config) := entry in
  url <- getitem endpoint_config "url" ;;
  params <- get endpoint_config "params" (PDict []) ;;
  try_except
    (data <- fetch url params ;;
     parsed <- WallStreetCN_parse_endpoint self endpoint_key data ;;
     ret (items ++ parsed))
    (fun e => print (Failed_to_fetch_endpoint endpoint_key e) ;;; ret items).

(** [WallStreetCNSource._fetch_api] *)
Definition WallStreetCN_fetch_api (self : NewsSource) (self_endpoints : pyval)
  : M (list NewsItem) :=
  endpoints <- lift (py_items self_endpoints) ;;
  for_ endpoints (endpoint_step self) [].

(** [a_tag.get("href", "")] *)
Definition href_of (a_tag : element) : string :=
  match get_attr a_tag "href" with
  | Some h => h
  | None => ""
  end.

(** [HupuSource._fetch_html] *)
Definition Hupu_fetch_html (self : NewsSource) (self_url : pyval)
  : M (list NewsItem) :=
  html <- fetch self_url PNone ;;
  soup <- lift (BeautifulSoup html) ;;
  for_ (select "li.bbs-sl-web-post-body" soup) (fun li items =>
    match select_one "a.p-title" li with
    | None => ret items
    | Some a_tag =>
        let title := get_text_strip a_tag in
        if title =? "" then ret items
        else
          let url := href_of a_tag in
          let url := if negb (url =? "") && negb (startswith url "http")
                     then ("https://bbs.hupu.com" ++ url)%string
                     else url in
          now <- datetime_now ;;
          ret (items ++ [new_item self (PStr title) (PStr url) (PStr "") now])
    end) [].

(** The body of the loop of [ThePaperSource._fetch_api]. *)
Definition ThePaper_record (self : NewsSource) (item : pyval) (items : list NewsItem)
  : M (list NewsItem) :=
  title <- get item "name" (PStr "") ;;
  if negb (truthy title) then ret items
  else
    cont_id <- get item "contId" (PStr "") ;;
    let url := if truthy cont_id
               then ("https://www.thepaper.cn/newsDetail_forward_"
                       ++ py_str cont_id)%string
               else "" in
    now <- datetime_now ;;
    ret (items ++ [new_item self title (PStr url) (PStr "") now]).

(** [ThePaperSource._fetch_api] *)
Definition ThePaper_fetch_api (self : NewsSource) (self_url : pyval)
  : M (list NewsItem) :=
  data <- fetch self_url PNone ;;
  has_data <- contains "data" data ;;
  if has_data : bool then
    d <- getitem data "data" ;;
    records <- getitem d "hotNews" ;;
    records <- iter records ;;
    for_ records (ThePaper_record self) []
  else ret [].

(** [HackerNewsSource._fetch_html] *)
Definition HackerNews_fetch_html (self : NewsSource) (self_url : pyval)
  : M (list NewsItem) :=
  html <- fetch self_url PNone ;;
  soup <- lift (BeautifulSoup html) ;;
  for_ (select "tr.athing" soup) (fun tr items =>
    match select_one "td.title span.titleline a" tr with
    | None => ret items
    | Some title_cell =>
        let title := get_text_strip title_cell in
        let url := href_of title_cell in
        if title =? "" then ret items
        else
          now <- datetime_now ;;
          ret (items ++ [new_item self (PStr title) (PStr url) (PStr "") now])
    end) [].

(** [ProductHuntSource._fetch_html] *)
Definition ProductHunt_fetch_html (self : NewsSource) (self_url : pyval)
  : M (list NewsItem) :=
  html <- fetch self_url PNone ;;
  soup <- lift (BeautifulSoup html) ;;
  for_ (select "[data-test^='post-item']" soup) (fun post items =>
    match find_post_name post with
    | None => ret items
    | Some title_elem =>
        let title := get_text_strip title_elem in
        if title =? "" then ret items
        else
          let url := match select_one "a[href^='/posts/']" post with
                     | Some link_elem =>
                         ("https://www.producthunt.com" ++ href_of link_elem)%string
                     | None => ""
                     end in
          now <- datetime_now ;;
          ret (items ++ [new_item self (PStr title) (PStr url) (PStr "") now])
    end) [].

(** [GitHubSource._fetch_html] *)
Definition GitHub_fetch_html (self : NewsSource) (self_url : pyval)
  : M (list NewsItem) :=
  html <- fetch self_url PNone ;;
  soup <- lift (BeautifulSoup html) ;;
  for_ (select "main .Box div[data-hpc] > article" soup) (fun article items =>
    match select_one "h2 a" article with
    | None => ret items
    | Some a_tag =>
        let title := strip (remove_newlines (get_text_strip a_tag)) in
        if title =? "" then ret items
        else
          let url := href_of a_tag in
          let url := if negb (url =? "") && negb (startswith url "http")
                     then ("https://github.com" ++ url)%string
                     else url in
          now <- datetime_now ;;
          ret (items ++ [new_item self (PStr title) (PStr url) (PStr "") now])
    end) [].

(** The body of the loop of [SspaiSource._fetch_api]. *)
Definition Sspai_record (self : NewsSource) (item : pyval) (items : list NewsItem)
  : M (list NewsItem) :=
  title <- get item "title" (PStr "") ;;
  if negb (truthy title) then ret items
  else
    id <- get item "id" (PStr "") ;;
    summary <- get item "summary" (PStr "") ;;
    now <- datetime_now ;;
    ret (items ++ [new_item self title id summary now]).

(** [SspaiSource._fetch_api] *)
Definition Sspai_fetch_api (self : NewsSource) (self_url self_params : pyval)
  : M (list NewsItem) :=
  params <- lift (py_copy self_params) ;;
  now <- datetime_now ;;
  params <- lift (py_setitem params "created_at" (PInt now)) ;;
  data <- fetch self_url params ;;
  has_data <- contains "data" data ;;
  if has_data : bool then
    records <- getitem data "data" ;;
    records <- iter records ;;
    for_ records (Sspai_record self) []
  else ret [].

(** [self._fetch_api()], by the class of [self]; a class that does not
    define the method inherits [pass], which returns [None]. *)
Definition _fetch_api (self : NewsSource) : M (option (list NewsItem)) :=
  match self_variant self with
  | Zhihu u => items <- Zhihu_fetch_api self u ;; ret (Some items)
  | WallStreetCN e => items <- WallStreetCN_fetch_api self e ;; ret (Some items)
  | ThePaper u => items <- ThePaper_fetch_api self u ;; ret (Some items)
  | Sspai u p => items <- Sspai_fetch_api self u p ;; ret (Some items)
  | _ => ret None
  end.

(** [self._fetch_html()] *)
Definition _fetch_html (self : NewsSource) : M (option (list NewsItem)) :=
  match self_variant self with
  | Hupu u => items <- Hupu_fetch_html self u ;; ret (Some items)
  | HackerNews u => items <- HackerNews_fetch_html self u ;; ret (Some items)
  | ProductHunt u => items <- ProductHunt_fetch_html self u ;; ret (Some items)
  | GitHub u => items <- GitHub_fetch_html self u ;; ret (Some items)
  | _ => ret None
  end.

(** [NewsSource.fetch] *)
Definition NewsSource_fetch (self : NewsSource) : M (option (list NewsItem)) :=
  if negb (truthy (self_enabled self)) then ret (Some [])
  else if py_eq_str (self_type self) "api" then _fetch_api self
  else if py_eq_str (self_type self) "html" then _fetch_html self
  else ret (Some []).

(** *** Aggregator *)

Definition SOURCE_MAP : list (string * (pyval -> M NewsSource)) :=
  [ ("zhihu", ZhihuSource);
    ("wallstreetcn", WallStreetCNSource);
    ("hupu", HupuSource);
    ("thepaper", ThePaperSource);
    ("hackernews", HackerNewsSource);
    ("producthunt", ProductHuntSource);
    ("github", GitHubSource);
    ("sspai", SspaiSource) ].

(** [SOURCE_MAP.get(platform_id)] *)
Fixpoint SOURCE_MAP_get (platform_id : string)
    (m : list (string * (pyval -> M NewsSource))) : option (pyval -> M NewsSource) :=
  match m with
  | [] => None
  | (k, c) :: rest => if k =? platform_id then Some c else SOURCE_MAP_get platform_id rest
  end.

(** [len(items)] *)
Definition len (items : option (list NewsItem)) : M nat :=
  match items with
  | Some l => ret (length l)
  | None => raise TypeError
  end.

Definition load_config : M pyval := lift sources_json.

(** What [fetch_all_news] does inside its [try] for one platform: the
    new value of [all_items]. *)
Definition try_platform (source_class : pyval -> M NewsSource)
    (platform_id : string) (platform_config : pyval) (all_items : list NewsItem)
  : M (list NewsItem) :=
  source <- source_class platform_config ;;
  items <- NewsSource_fetch source ;;
  n <- len items ;;
  print (Fetched_items platform_id n) ;;;
  ret (all_items ++ match items with Some l => l | None => [] end).

(** The body of the loop of [fetch_all_news]. *)
Definition platform_step (entry : string * pyval) (all_items : list NewsItem)
  : M (list NewsItem) :=
  let '(platform_id, platform_config) := entry in
  enabled <- get platform_config "enabled" (PBool true) ;;
  if negb (truthy enabled) then ret all_items
  else match SOURCE_MAP_get platform_id SOURCE_MAP with
       | None => print (Unknown_platform platform_id) ;;; ret all_items
       | Some source_class =>
           try_except
             (try_platform source_class platform_id platform_config all_items)
             (fun e => print (Error_fetching_from platform_id e) ;;; ret all_items)
       end.

Definition fetch_all_news : M (list NewsItem) :=
  config <- load_config ;;
  platforms <- getitem config "platforms" ;;
  platforms <- lift (py_items platforms) ;;
  for_ platforms platform_step [].

(* ================================================================== *)
(** ** Vocabulary of the statements *)

(** An attempt of the transport fails when [requests.get] raises or
    [raise_for_status] does. *)
Definition attempt_fails (o : http_outcome) : bool :=
  match o with
  | Raises _ => true
  | Responds r => (400 <=? status_code r)%Z && (status_code r <? 600)%Z
  end.

(** What a successful attempt returns: the parsed JSON, or the raw text. *)
Definition payload (r : response) : pyval :=
  match json_body r with
  | Some v => v
  | None => PStr (text r)
  end.

(** The world after [k] more requests for [url] and [params], [d] seconds
    later. *)
Definition after_requests (k : nat) (url params : pyval) (d : Z) (w : world)
  : world :=
  mkWorld (requests_sent w ++ repeat (url, params) k) (clock w + d) (stdout w).

(** *** Records of an API response

    A record is read against the schema of its source. The reading is
    [Some t] when the fields on the way to the title have the JSON types
    the source expects, [t] being the title, and the empty string when the
    title is absent; it is [None] when the record is malformed. *)

(** A field that holds an object; absent, it counts as the empty object. *)
Definition object_field (k : string) (d : list (string * pyval))
  : option (list (string * pyval)) :=
  match dict_lookup k d with
  | None => Some []
  | Some (PDict o) => Some o
  | Some _ => None
  end.

(** A field that holds a string; absent, it counts as the empty string. *)
Definition string_field (k : string) (d : list (string * pyval)) : option string :=
  match dict_lookup k d with
  | None => Some ""
  | Some (PStr s) => Some s
  | Some _ => None
  end.

(** Zhihu: the title is [target.title_area.text]; [target.excerpt_area] is
    an object too. *)
Definition zhihu_title (record : pyval) : option string :=
  match record with
  | PDict d =>
      match object_field "target" d with
      | Some target =>
          match object_field "title_area" target,
                object_field "excerpt_area" target with
          | Some title_area, Some _ => string_field "text" title_area
          | _, _ => None
          end
      | None => None
      end
  | _ => None
  end.





Definition is_object (v : pyval) : bool :=
  match v with
  | PDict _ => true
  | _ => false
  end.

(** [record.get(k, dflt)] on a record that is an object. *)
Definition field_or (k : string) (dflt : pyval) (record : pyval) : pyval :=
  match record with
  | PDict d => match dict_lookup k d with
               | Some v => v
               | None => dflt
               end
  | _ => dflt
  end.

(** A well-formed record has a title. *)
Definition well_formed (title_of : pyval -> option string) (record : pyval) : bool :=
  match title_of record with
  | Some t => negb (t =? "")
  | None => false
  end.


(** No record is malformed. *)
Definition conform (title_of : pyval -> option string) (records : list pyval)
  : Prop :=
  Forall (fun r => title_of r <> None) records.



(** What one turn of a loop adds to the list being built. *)
Definition emitted {X} (body : X -> list NewsItem -> M (list NewsItem))
    (x : X) (w : world) : list NewsItem :=
  match body x [] w with
  | (inr l, _) => l
  | (inl _, _) => []
  end.





(** The four extractions of HTML-kind sources. *)
Definition html_extraction (self : NewsSource) (u : pyval) (run : M (list NewsItem))
  : Prop :=
  run = Hupu_fetch_html self u \/ run = HackerNews_fetch_html self u
  \/ run = ProductHunt_fetch_html self u \/ run = GitHub_fetch_html self u.

(** *** Isolation of failures *)

(** The world after one more line is printed. *)
Definition printed (l : log_line) (w : world) : world :=
  mkWorld (requests_sent w) (clock w) (stdout w ++ [l]).

(** Running the parts of a list one after the other, each from the world
    the one before left, and putting together what each contributes. *)
Fixpoint thread {X Y} (part : X -> world -> list Y * world) (xs : list X)
    (w : world) : list Y * world :=
  match xs with
  | [] => ([], w)
  | x :: rest =>
      let '(mine, w1) := part x w in
      let '(theirs, w2) := thread part rest w1 in
      (mine ++ theirs, w2)
  end.

(** What one platform of the configuration contributes to the result of
    the aggregator: the Items its source returns when the source is enabled,
    known, and when building it and calling its [fetch()] raise nothing;
    no Item otherwise. *)
Definition contribution (entry : string * pyval) (w : world)
  : list NewsItem * world :=
  let '(platform_id, platform_config) := entry in
  if negb (truthy (field_or "enabled" (PBool true) platform_config)) then ([], w)
  else match SOURCE_MAP_get platform_id SOURCE_MAP with
       | None => ([], printed (Unknown_platform platform_id) w)
       | Some source_class =>
           match (source <- source_class platform_config ;;
                  NewsSource_fetch source) w with
           | (inr (Some items), w') =>
               (items, printed (Fetched_items platform_id (length items)) w')
           | (inr None, w') =>
               ([], printed (Error_fetching_from platform_id TypeError) w')
           | (inl e, w') =>
               ([], printed (Error_fetching_from platform_id e) w')
           end
       end.

(** An endpoint configuration the source can start from: an object with a
    url. *)
Definition has_url (endpoint_config : pyval) : bool :=
  match endpoint_config with
  | PDict c => match dict_lookup "url" c with
               | Some _ => true
               | None => false
               end
  | _ => false
  end.

(** What one endpoint contributes to the result of WallStreetCN: the Items
    parsed from its response, and none when the request or the parsing
    raises. *)
Definition endpoint_contribution (self : NewsSource) (entry : string * pyval)
    (w : world) : list NewsItem * world :=
  let '(endpoint_key, endpoint_config) := entry in
  match (data <- fetch (field_or "url" PNone endpoint_config)
                       (field_or "params" (PDict []) endpoint_config) ;;
         WallStreetCN_parse_endpoint self endpoint_key data) w with
  | (inr parsed, w') => (parsed, w')
  | (inl e, w') => ([], printed (Failed_to_fetch_endpoint endpoint_key e) w')
  end.

(** *** Sanitized text *)

(** In a tidy string every whitespace character is a space and no space
    follows another; [after_space] tells that the string comes after a
    space. *)
Fixpoint tidy (after_space : bool) (s : string) : bool :=
  match s with
  | EmptyString => true
  | String c rest =>
      if isspace c
      then Ascii.eqb c " " && negb after_space && tidy true rest
      else tidy false rest
  end.

(** *** Outcomes of the transport *)

(** Why a failed attempt failed: what [requests.get] raised, or the
    [HTTPError] of the status. *)
Definition cause (o : http_outcome) : exn :=
  match o with
  | Raises e => e
  | Responds r => HTTPError (status_code r)
  end.

(** The seconds waited after each of the first [k] attempts. *)
Fixpoint waited (k : nat) : Z :=
  match k with
  | O => 0
  | S k' => waited k' + wait_exponential (Z.of_nat k)
  end.

(** *** Construction of a source *)

(** The keys a constructor reads with [config[...]], in the order it reads
    them. *)
Definition required_keys (platform_id : string) : list string :=
  ["name"; "icon"; "type"; "category";
   if platform_id =? "wallstreetcn" then "endpoints" else "url"].

(** The first key of [keys] that the config lacks. *)
Definition first_missing (keys : list string) (config : list (string * pyval))
  : option string :=
  find (fun k => match dict_lookup k config with
                 | Some _ => false
                 | None => true
                 end) keys.

(** *** Sources of one request *)

(** [single_request self w u params run]: [run] is the extraction of a
    source that sends one request, for [u] with [params], when started in
    world [w]. *)
Inductive single_request (self : NewsSource) (w : world)
  : pyval -> pyval -> M (list NewsItem) -> Prop :=
| request_zhihu (u : pyval) :
    single_request self w u PNone (Zhihu_fetch_api self u)
| request_thepaper (u : pyval) :
    single_request self w u PNone (ThePaper_fetch_api self u)
| request_sspai (u : pyval) (params : list (string * pyval)) :
    single_request self w u
                   (PDict (dict_set "created_at" (PInt (clock w)) params))
                   (Sspai_fetch_api self u (PDict params)).

(** *** Items of a source *)

(** An Item as the source [self] makes them: a title that is not empty, a
    timestamp, and the platform, icon and category of [self]. *)
Definition item_of (self : NewsSource) (it : NewsItem) : Prop :=
  truthy (title it) = true
  /\ timestamp it <> None
  /\ platform it = self_platform self
  /\ platform_icon it = self_icon self
  /\ raw_category it = self_category self.

(** A url that is empty or starts with "http". *)
Definition absolute_or_empty (it : NewsItem) : Prop :=
  exists s, url it = PStr s /\ (s = "" \/ startswith s "http" = true).

(** The three HTML-kind sources that put their origin in front of an
    href. *)
Definition rewrites_hrefs (self : NewsSource) (u : pyval) (run : M (list NewsItem))
  : Prop :=
  run = Hupu_fetch_html self u \/ run = ProductHunt_fetch_html self u
  \/ run = GitHub_fetch_html self u.

(** *** Fields of the Items *)

(** The permalink ThePaper builds from the [contId] of a record. *)
Definition thepaper_url (record : pyval) : pyval :=
  let cont_id := field_or "contId" (PStr "") record in
  PStr (if truthy cont_id
        then ("https://www.thepaper.cn/newsDetail_forward_" ++ py_str cont_id)%string
        else "").

(** The [target] of a Zhihu record, and the text of its excerpt. *)
Definition zhihu_target (record : pyval) : pyval :=
  field_or "target" (PDict []) record.

Definition zhihu_excerpt (record : pyval) : pyval :=
  field_or "text" (PStr "")
           (field_or "excerpt_area" (PDict []) (zhihu_target record)).

(** *** Kinds of sources *)

(** The kind of extraction the class of a platform defines: [_fetch_api]
    or [_fetch_html]. *)
Definition source_kind (platform_id : string) : string :=
  if existsb (String.eqb platform_id) ["zhihu"; "wallstreetcn"; "thepaper"; "sspai"]
  then "api" else "html".

(** An Item that bears the id of a platform of the configuration, for
    which a source class is registered. *)
Definition from_platform (platforms : list (string * pyval)) (it : NewsItem)
  : Prop :=
  In (platform it) (map fst platforms)
  /\ In (platform it) (map fst SOURCE_MAP).

(** *** Pages of HTML-kind sources *)

(** [html_page self u run selector title_of]: [run] is the extraction of an
    HTML-kind source; it goes through the nodes [selector] matches, and
    [title_of] is the title it reads in a node, when the node has the
    element that holds it. *)
Inductive html_page (self : NewsSource) (u : pyval)
  : M (list NewsItem) -> string -> (element -> option string) -> Prop :=
| page_hupu :
    html_page self u (Hupu_fetch_html self u) "li.bbs-sl-web-post-body"
      (fun li => option_map get_text_strip (select_one "a.p-title" li))
| page_hackernews :
    html_page self u (HackerNews_fetch_html self u) "tr.athing"
      (fun tr => option_map get_text_strip
                            (select_one "td.title span.titleline a" tr))
| page_producthunt :
    html_page self u (ProductHunt_fetch_html self u) "[data-test^='post-item']"
      (fun post => option_map get_text_strip (find_post_name post))
| page_github :
    html_page self u (GitHub_fetch_html self u)
      "main .Box div[data-hpc] > article"
      (fun article =>
         option_map (fun a_tag => strip (remove_newlines (get_text_strip a_tag)))
                    (select_one "h2 a" article)).

(** The titles of the nodes that have one, in order. *)
Definition node_titles (title_of : element -> option string) (nodes : list element)
  : list pyval :=
  flat_map (fun n => match title_of n with
                     | Some t => if t =? "" then [] else [PStr t]
                     | None => []
                     end) nodes.

(** *** [fetch()] of an API-kind source *)






(** *** Hrefs and origins *)

(** The url made of an href: the origin goes in front of an href that is
    not empty and does not start with "http"; any other href is kept. *)
Definition with_origin (origin href : string) : string :=
  if negb (href =? "") && negb (startswith href "http")
  then (origin ++ href)%string
  else href.

(** [origin_page self u run selector title_of url_of]: [run] is the
    extraction of one of the three sources that put their origin in front
    of an href; it goes through the nodes [selector] matches, [title_of] is
    the title it reads in a node and [url_of] the url it gives the Item of
    the node. *)
Inductive origin_page (self : NewsSource) (u : pyval)
  : M (list NewsItem) -> string -> (element -> option string)
    -> (element -> string) -> Prop :=
| origin_hupu :
    origin_page self u (Hupu_fetch_html self u) "li.bbs-sl-web-post-body"
      (fun li => option_map get_text_strip (select_one "a.p-title" li))
      (fun li => match select_one "a.p-title" li with
                 | Some a_tag => with_origin "https://bbs.hupu.com" (href_of a_tag)
                 | None => ""
                 end)
| origin_producthunt :
    origin_page self u (ProductHunt_fetch_html self u) "[data-test^='post-item']"
      (fun post => option_map get_text_strip (find_post_name post))
      (fun post => match select_one "a[href^='/posts/']" post with
                   | Some link_elem =>
                       ("https://www.producthunt.com" ++ href_of link_elem)%string
                   | None => ""
                   end)
| origin_github :
    origin_page self u (GitHub_fetch_html self u)
      "main .Box div[data-hpc] > article"
      (fun article =>
         option_map (fun a_tag => strip (remove_newlines (get_text_strip a_tag)))
                    (select_one "h2 a" article))
      (fun article => match select_one "h2 a" article with
                      | Some a_tag => with_origin "https://github.com" (href_of a_tag)
                      | None => ""
                      end).

(** A node that gives an Item: it has its title element, with a text that
    is not empty. *)
Definition titled (title_of : element -> option string) (n : element) : bool :=
  match title_of n with
  | Some t => negb (t =? "")
  | None => false
  end.

(* ================================================================== *)
(** ** The monad and the loops *)

Lemma world_eta (w : world) :
  mkWorld (requests_sent w) (clock w) (stdout w) = w.
Proof. destruct w; reflexivity. Qed.

Lemma for_app {X S} (xs ys : list X) (body : X -> S -> M S) (acc : S) (w : world) :
  for_ (xs ++ ys) body acc w =
  match for_ xs body acc w with
  | (inr acc', w') => for_ ys body acc' w'
  | (inl e, w') => (inl e, w')
  end.
Proof.
  revert acc w. induction xs as [|x xs IH]; intros acc w; simpl.
  - reflexivity.
  - unfold bind. destruct (body x acc w) as [[e|acc'] w'].
    + reflexivity.
    + apply IH.
Qed.

(** A loop whose body, on each element, appends to the list it builds and
    leaves the world alone. *)
Lemma for_collect {X Y} (g : X -> world -> list Y) (xs : list X)
    (body : X -> list Y -> M (list Y)) (w : world) :
  Forall (fun x => forall acc, body x acc w = (inr (acc ++ g x w), w)) xs ->
  forall acc,
    for_ xs body acc w = (inr (acc ++ flat_map (fun x => g x w) xs), w).
Proof.
  induction 1 as [|x xs Hx _ IH]; intros acc; simpl.
  - rewrite app_nil_r. reflexivity.
  - unfold bind. rewrite Hx. rewrite IH, app_assoc. reflexivity.
Qed.


(* ================================================================== *)
(** ** Transport *)

Lemma fetch_attempt_fails (url params : pyval) (w : world) :
  attempt_fails (http (length (requests_sent w)) url params) = true ->
  exists e, fetch_attempt url params w
            = (inl (Failed_to_fetch url e), after_requests 1 url params 0 w).
Proof.
  intros H. unfold fetch_attempt, try_except, bind, requests_get, after_requests.
  rewrite Z.add_0_r. simpl repeat.
  destruct (http _ url params) as [e|r]; simpl in *.
  - exists e. reflexivity.
  - exists (HTTPError (status_code r)).
    unfold raise_for_status. rewrite H. reflexivity.
Qed.

Lemma fetch_attempt_succeeds (url params : pyval) (w : world) (r : response) :
  http (length (requests_sent w)) url params = Responds r ->
  attempt_fails (Responds r) = false ->
  fetch_attempt url params w = (inr (payload r), after_requests 1 url params 0 w).
Proof.
  intros H Hok. unfold fetch_attempt, try_except, bind, requests_get, after_requests.
  rewrite Z.add_0_r, H. simpl in *.
  unfold raise_for_status. rewrite Hok. unfold ret, response_json, payload.
  destruct (json_body r); reflexivity.
Qed.

(** C7. When the first two attempts of [fetch] fail and the third succeeds,
    [fetch] returns what the third attempt got (the parsed JSON, or the raw
    text when the body is not JSON); three requests were sent, and the waits
    after the first and the second attempt have passed. *)
Theorem fetch_third_attempt_wins (url params : pyval) (w : world) (r : response) :
  attempt_fails (http (length (requests_sent w)) url params) = true ->
  attempt_fails (http (S (length (requests_sent w))) url params) = true ->
  http (S (S (length (requests_sent w)))) url params = Responds r ->
  attempt_fails (Responds r) = false ->
  fetch url params w
  = (inr (payload r),
     after_requests 3 url params (wait_exponential 1 + wait_exponential 2) w).
Proof.
  intros H1 H2 H3 Hok. set (n := length (requests_sent w)) in *. unfold fetch. simpl retry.
  unfold try_except at 1.
  destruct (fetch_attempt_fails url params w H1) as [e1 ->].
  cbn [stop_after_attempt Z.geb Z.compare Pos.compare Pos.compare_cont].
  unfold bind at 1, sleep at 1.
  set (w1 := mkWorld _ _ _).
  assert (L1 : length (requests_sent w1) = S n).
  { subst w1; simpl. rewrite length_app; simpl. lia. }
  unfold try_except at 1.
  destruct (fetch_attempt_fails url params w1) as [e2 ->].
  { rewrite L1. exact H2. }
  cbn [Z.add Pos.add stop_after_attempt Z.geb Z.compare Pos.compare Pos.compare_cont Pos.succ].
  unfold bind at 1, sleep at 1.
  set (w2 := mkWorld _ _ _).
  assert (L2 : length (requests_sent w2) = S (S n)).
  { subst w2 w1; simpl. rewrite !length_app; simpl. lia. }
  unfold try_except.
  rewrite (fetch_attempt_succeeds url params w2 r); [| rewrite L2; exact H3 | exact Hok].
  f_equal. subst w2 w1. unfold after_requests; simpl.
  rewrite <- !app_assoc. simpl. f_equal. unfold wait_exponential; simpl. lia.
Qed.

(* ================================================================== *)
(** ** NewsSource.fetch *)

(** An enabled source of type "api" or "html" runs the extraction of its
    class. *)
Lemma fetch_dispatches (self : NewsSource) :
  truthy (self_enabled self) = true ->
  (py_eq_str (self_type self) "api" = true ->
   NewsSource_fetch self = _fetch_api self)
  /\ (py_eq_str (self_type self) "html" = true ->
      NewsSource_fetch self = _fetch_html self).
Proof.
  intros He. unfold NewsSource_fetch. rewrite He. simpl. split; intros Ht.
  - rewrite Ht. reflexivity.
  - destruct (self_type self); try discriminate. simpl in *.
    apply String.eqb_eq in Ht. subst. reflexivity.
Qed.

(** C5. A source whose [enabled] flag is false returns the empty list
    without a single request: the world, and with it the list of requests
    sent, is as before. *)
Theorem disabled_source_fetches_nothing (self : NewsSource) (w : world) :
  truthy (self_enabled self) = false ->
  NewsSource_fetch self w = (inr (Some []), w)
  /\ requests_sent (snd (NewsSource_fetch self w)) = requests_sent w.
Proof.
  intros H. unfold NewsSource_fetch. rewrite H. simpl. split; reflexivity.
Qed.

(** C10. An enabled source whose type is neither "api" nor "html" returns
    the empty list, raises nothing and sends no request. *)
Theorem unknown_type_fetches_nothing (self : NewsSource) (w : world) :
  truthy (self_enabled self) = true ->
  py_eq_str (self_type self) "api" = false ->
  py_eq_str (self_type self) "html" = false ->
  NewsSource_fetch self w = (inr (Some []), w)
  /\ requests_sent (snd (NewsSource_fetch self w)) = requests_sent w.
Proof.
  intros He Ha Hh. unfold NewsSource_fetch. rewrite He, Ha, Hh. simpl.
  split; reflexivity.
Qed.

(* ================================================================== *)
(** ** Extraction from API responses *)






(** Case analysis on the fields a record is looked up for. *)
Ltac fields :=
  repeat (cbn in *;
    match goal with
    | H : ?x <> ?x |- _ => exfalso; apply H; reflexivity
    | H : None <> None |- _ => exfalso; apply H; reflexivity
    | |- context [dict_lookup ?k ?d] =>
        is_var d; destruct (dict_lookup k d) as [[]|]
    | H : context [dict_lookup ?k ?d] |- _ =>
        is_var d; destruct (dict_lookup k d) as [[]|]
    | |- context [(?s =? "")%string] => is_var s; destruct s
    end).



Lemma Sspai_record_runs (self : NewsSource) (w : world) (r : pyval)
    (acc : list NewsItem) :
  is_object r = true ->
  Sspai_record self r acc w
  = (inr (acc ++ if truthy (field_or "title" (PStr "") r)
                 then [new_item self (field_or "title" (PStr "") r)
                                (field_or "id" (PStr "") r)
                                (field_or "summary" (PStr "") r) (clock w)]
                 else []), w).
Proof.
  destruct r; try discriminate. intros _.
  unfold Sspai_record, get, lift, bind, ret, datetime_now, py_get, field_or.
  destruct (truthy _); cbn; rewrite ?app_nil_r; reflexivity.
Qed.







(** Once the transport has answered, each [_fetch_api] is its loop over
    the records of the response. *)
Lemma Zhihu_fetch_api_loop (self : NewsSource) (u : pyval) (w w1 : world)
    (resp : list (string * pyval)) (records : list pyval) :
  fetch u PNone w = (inr (PDict resp), w1) ->
  dict_lookup "data" resp = Some (PList records) ->
  Zhihu_fetch_api self u w = for_ records (Zhihu_record self) [] w1.
Proof.
  intros Hf Hd. unfold Zhihu_fetch_api, bind at 1. rewrite Hf.
  unfold contains, getitem, iter, lift, bind. cbn. rewrite Hd. reflexivity.
Qed.

Lemma ThePaper_fetch_api_loop (self : NewsSource) (u : pyval) (w w1 : world)
    (resp data : list (string * pyval)) (records : list pyval) :
  fetch u PNone w = (inr (PDict resp), w1) ->
  dict_lookup "data" resp = Some (PDict data) ->
  dict_lookup "hotNews" data = Some (PList records) ->
  ThePaper_fetch_api self u w = for_ records (ThePaper_record self) [] w1.
Proof.
  intros Hf Hd Hn. unfold ThePaper_fetch_api, bind at 1. rewrite Hf.
  unfold contains, getitem, iter, lift, bind. cbn. rewrite Hd. cbn.
  rewrite Hn. reflexivity.
Qed.

Lemma Sspai_fetch_api_loop (self : NewsSource) (u : pyval) (w w1 : world)
    (params resp : list (string * pyval)) (records : list pyval) :
  fetch u (PDict (dict_set "created_at" (PInt (clock w)) params)) w
  = (inr (PDict resp), w1) ->
  dict_lookup "data" resp = Some (PList records) ->
  Sspai_fetch_api self u (PDict params) w = for_ records (Sspai_record self) [] w1.
Proof.
  intros Hf Hd.
  unfold Sspai_fetch_api, bind, lift, datetime_now, py_copy, py_setitem.
  cbv beta iota. rewrite Hf.
  unfold contains, getitem, iter, lift. cbn. rewrite Hd. reflexivity.
Qed.










(** A loop whose body never raises and leaves the world alone. *)
Lemma for_total {X Y} (xs : list X) (body : X -> list Y -> M (list Y)) (w : world) :
  (forall x acc, exists l, body x acc w = (inr l, w)) ->
  forall acc, exists l, for_ xs body acc w = (inr l, w).
Proof.
  intros H. induction xs as [|x xs IH]; intros acc; simpl.
  - exists acc. reflexivity.
  - unfold bind. destruct (H x acc) as [l ->]. apply IH.
Qed.

Lemma html_extraction_total (self : NewsSource) (u : pyval) (w w1 : world)
    (run : M (list NewsItem)) (html : string) :
  html_extraction self u run ->
  fetch u PNone w = (inr (PStr html), w1) ->
  exists items, run w = (inr items, w1).
Proof.
  intros [-> | [-> | [-> | ->]]] Hf;
    unfold Hupu_fetch_html, HackerNews_fetch_html, ProductHunt_fetch_html,
           GitHub_fetch_html, bind at 1; rewrite Hf;
    unfold lift, bind at 1; cbn [BeautifulSoup];
    apply for_total; intros x acc;
    unfold bind, ret, datetime_now.
  - destruct (select_one _ x); [|eauto]. destruct (_ =? ""); eauto.
  - destruct (select_one _ x); [|eauto]. destruct (_ =? ""); eauto.
  - destruct (find_post_name x); [|eauto]. destruct (_ =? ""); eauto.
  - destruct (select_one _ x); [|eauto]. destruct (_ =? ""); eauto.
Qed.


(** C9. Sspai fills the url of every Item with the [id] field of its
    record, and with the empty string when the record has no [id]: the urls
    of the Items are the ids of the records that have a title, in order. *)
Theorem sspai_url_is_record_id (self : NewsSource) (u : pyval) (w w1 : world)
    (params resp : list (string * pyval)) (records : list pyval) :
  fetch u (PDict (dict_set "created_at" (PInt (clock w)) params)) w
  = (inr (PDict resp), w1) ->
  dict_lookup "data" resp = Some (PList records) ->
  Forall (fun r => is_object r = true) records ->
  exists items,
    Sspai_fetch_api self u (PDict params) w = (inr items, w1)
    /\ map url items
       = map (field_or "id" (PStr ""))
             (filter (fun r => truthy (field_or "title" (PStr "") r)) records).
Proof.
  intros Hf Hd Ho.
  rewrite (Sspai_fetch_api_loop self u w w1 params resp records Hf Hd).
  set (g := fun (r : pyval) (w : world) =>
              if truthy (field_or "title" (PStr "") r)
              then [new_item self (field_or "title" (PStr "") r)
                             (field_or "id" (PStr "") r)
                             (field_or "summary" (PStr "") r) (clock w)]
              else []).
  exists (flat_map (fun r => g r w1) records). split.
  - apply (for_collect g records (Sspai_record self) w1).
    eapply Forall_impl; [|exact Ho]. intros r Hr acc.
    apply Sspai_record_runs, Hr.
  - clear. induction records as [|r rs IH]; [reflexivity|].
    simpl. rewrite map_app, IH. unfold g.
    destruct (truthy (field_or "title" (PStr "") r)); reflexivity.
Qed.

(* ================================================================== *)
(** ** Isolation of failures *)

(** A loop whose body, on each element, appends what the element
    contributes and never raises. *)
Lemma for_thread {X Y} (part : X -> world -> list Y * world) (P : X -> Prop)
    (body : X -> list Y -> M (list Y)) (xs : list X) :
  (forall x acc w, P x ->
     body x acc w = (inr (acc ++ fst (part x w)), snd (part x w))) ->
  Forall P xs ->
  forall acc w,
    for_ xs body acc w
    = (inr (acc ++ fst (thread part xs w)), snd (thread part xs w)).
Proof.
  intros Hb. induction 1 as [|x xs Hx _ IH]; intros acc w; simpl.
  - rewrite app_nil_r. reflexivity.
  - unfold bind. rewrite (Hb x acc w Hx), IH.
    destruct (part x w) as [mine w1]. simpl.
    destruct (thread part xs w1) as [theirs w2]. simpl.
    rewrite app_assoc. reflexivity.
Qed.

Lemma endpoint_step_contributes (self : NewsSource) (entry : string * pyval)
    (acc : list NewsItem) (w : world) :
  has_url (snd entry) = true ->
  endpoint_step self entry acc w
  = (inr (acc ++ fst (endpoint_contribution self entry w)),
     snd (endpoint_contribution self entry w)).
Proof.
  destruct entry as [key [| | | | | |c]]; try discriminate. simpl.
  destruct (dict_lookup "url" c) as [u|] eqn:Hu; [|discriminate]. intros _.
  unfold endpoint_step, endpoint_contribution, getitem, get, lift, bind,
         try_except, py_getitem, py_get, field_or, print, printed, ret.
  rewrite Hu.
  destruct (fetch u _ w) as [[e|data] w1]; simpl.
  - rewrite app_nil_r. reflexivity.
  - destruct (WallStreetCN_parse_endpoint self key data w1) as [[e|parsed] w2];
      simpl; rewrite ?app_nil_r; reflexivity.
Qed.


Lemma platform_step_contributes (entry : string * pyval)
    (acc : list NewsItem) (w : world) :
  is_object (snd entry) = true ->
  platform_step entry acc w
  = (inr (acc ++ fst (contribution entry w)), snd (contribution entry w)).
Proof.
  destruct entry as [id [| | | | | |c]]; try discriminate. intros _.
  unfold platform_step, contribution, get, lift, py_get, field_or.
  unfold bind at 1.
  destruct (negb (truthy _)).
  - unfold ret. simpl. rewrite app_nil_r. reflexivity.
  - destruct (SOURCE_MAP_get id SOURCE_MAP) as [source_class|].
    + unfold try_except, try_platform, bind, len, print, printed, ret, raise.
      destruct (source_class (PDict c) w) as [[e|source] w1]; simpl.
      * rewrite app_nil_r. reflexivity.
      * destruct (NewsSource_fetch source w1) as [[e|[items|]] w2]; simpl;
          rewrite ?app_nil_r; reflexivity.
    + unfold bind, print, printed, ret. simpl. rewrite app_nil_r. reflexivity.
Qed.

(** C1. Whatever the sources do, [fetch_all_news] returns a list and raises
    nothing: an error raised while a source is built or fetched is caught
    and printed, that source contributes no Item, and the platforms after it
    are run all the same, from the world the failed one left. The result is
    the Items of the sources that succeeded, in the order of the
    configuration. *)
Theorem fetch_all_news_isolates_failures (config platforms : list (string * pyval))
    (w : world) :
  sources_json = inr (PDict config) ->
  dict_lookup "platforms" config = Some (PDict platforms) ->
  Forall (fun entry => is_object (snd entry) = true) platforms ->
  fetch_all_news w
  = (inr (fst (thread contribution platforms w)),
     snd (thread contribution platforms w)).
Proof.
  intros Hj Hp Ho.
  unfold fetch_all_news, load_config, getitem, lift, bind, py_getitem, py_items.
  rewrite Hj, Hp.
  apply (for_thread contribution (fun entry => is_object (snd entry) = true)
           platform_step platforms
           (fun x acc w Hx => platform_step_contributes x acc w Hx) Ho [] w).
Qed.

(* ================================================================== *)
(** ** Sanitizer *)

Lemma tidy_collapse (b : bool) (s : string) : tidy b (collapse b s) = true.
Proof.
  revert b. induction s as [|c r IH]; intros b; simpl; [reflexivity|].
  destruct (isspace c) eqn:E.
  - destruct b; simpl; [apply IH|]. apply IH.
  - simpl. rewrite E. apply IH.
Qed.

Lemma collapse_tidy (b : bool) (s : string) :
  tidy b s = true -> collapse b s = s.
Proof.
  revert b. induction s as [|c r IH]; intros b; simpl; [reflexivity|].
  destruct (isspace c) eqn:E.
  - intros H. apply andb_prop in H. destruct H as [H Hr].
    apply andb_prop in H. destruct H as [Hc Hb].
    apply Ascii.eqb_eq in Hc. subst c. destruct b; [discriminate|].
    rewrite (IH true Hr). reflexivity.
  - intros H. rewrite (IH false H). reflexivity.
Qed.

Lemma tidy_lstrip (b b' : bool) (s : string) :
  tidy b s = true -> tidy b' (lstrip s) = true.
Proof.
  revert b. induction s as [|c r IH]; intros b; simpl; [reflexivity|].
  destruct (isspace c) eqn:E.
  - intros H. apply andb_prop in H. destruct H as [_ Hr]. apply (IH true Hr).
  - intros H. simpl. rewrite E. exact H.
Qed.

Lemma tidy_rstrip (b : bool) (s : string) :
  tidy b s = true -> tidy b (rstrip s) = true.
Proof.
  revert b. induction s as [|c r IH]; intros b; simpl; [reflexivity|].
  destruct (isspace c) eqn:E; simpl.
  - intros H. apply andb_prop in H. destruct H as [H Hr].
    destruct (rstrip r =? "") eqn:R; simpl; [reflexivity|].
    rewrite E, H. simpl. apply (IH true Hr).
  - intros H. rewrite E. apply (IH false H).
Qed.

Lemma lstrip_lstrip (s : string) : lstrip (lstrip s) = lstrip s.
Proof.
  induction s as [|c r IH]; simpl; [reflexivity|].
  destruct (isspace c) eqn:E; [exact IH|]. simpl. rewrite E. reflexivity.
Qed.

Lemma rstrip_rstrip (s : string) : rstrip (rstrip s) = rstrip s.
Proof.
  induction s as [|c r IH]; simpl; [reflexivity|].
  destruct (isspace c && (rstrip r =? "")) eqn:E; [reflexivity|].
  simpl. rewrite IH, E. reflexivity.
Qed.

Lemma rstrip_lstrip (s : string) :
  rstrip s = s -> rstrip (lstrip s) = lstrip s.
Proof.
  induction s as [|c r IH]; simpl; [reflexivity|].
  destruct (isspace c && (rstrip r =? "")) eqn:E; [discriminate|].
  intros H. injection H as Hr.
  destruct (isspace c) eqn:Ec.
  - apply IH, Hr.
  - simpl. rewrite Ec. simpl. rewrite Hr. reflexivity.
Qed.

Lemma strip_strip (s : string) : strip (strip s) = strip s.
Proof.
  unfold strip. rewrite (rstrip_lstrip (rstrip s) (rstrip_rstrip s)).
  apply lstrip_lstrip.
Qed.

(** Collapsing and stripping a second time changes nothing. *)
Lemma normalized_fixed (s : string) :
  strip (re_sub_spaces (strip (re_sub_spaces s))) = strip (re_sub_spaces s).
Proof.
  unfold re_sub_spaces.
  rewrite (collapse_tidy false (strip (collapse false s))).
  - apply strip_strip.
  - unfold strip. apply (tidy_lstrip false), tidy_rstrip, tidy_collapse.
Qed.

(** C8, as the code has it. [strip_html] returns a string [y] for every
    string; applied to [y] again it returns [y], provided the parser reads
    [y] back as the text [y] itself, that is, provided no markup and no
    character reference is left in [y]. *)
Theorem strip_html_idempotent_on_plain_text (x : string) :
  exists y,
    strip_html (PStr x) = inr y
    /\ (get_text_sep_strip (soup_of_str y) = y -> strip_html (PStr y) = inr y).
Proof.
  unfold strip_html. cbn [truthy BeautifulSoup].
  destruct (x =? "") eqn:Ex; cbn [negb].
  - exists "". split; reflexivity.
  - set (y := strip (re_sub_spaces (get_text_sep_strip (soup_of_str x)))).
    exists y. split; [reflexivity|]. intros H.
    destruct (y =? "") eqn:Ey; cbn [negb].
    + apply String.eqb_eq in Ey. rewrite Ey. reflexivity.
    + rewrite H. subst y. rewrite normalized_fixed. reflexivity.
Qed.

(* ================================================================== *)
(** ** Transport: every outcome of [fetch] *)

Lemma fetch_attempt_outcome (url params : pyval) (w : world) :
  fetch_attempt url params w
  = (match http (length (requests_sent w)) url params with
     | Raises e => inl (Failed_to_fetch url e)
     | Responds r =>
         if attempt_fails (Responds r)
         then inl (Failed_to_fetch url (HTTPError (status_code r)))
         else inr (payload r)
     end,
     after_requests 1 url params 0 w).
Proof.
  unfold fetch_attempt, try_except, bind, requests_get, after_requests.
  rewrite Z.add_0_r. simpl repeat.
  destruct (http _ url params) as [e|r]; simpl; [reflexivity|].
  unfold raise_for_status.
  destruct ((400 <=? status_code r)%Z && (status_code r <? 600)%Z);
    [reflexivity|].
  unfold ret, response_json, payload. destruct (json_body r); reflexivity.
Qed.

Lemma after_requests_length (k : nat) (url params : pyval) (d : Z) (w : world) :
  length (requests_sent (after_requests k url params d w))
  = (length (requests_sent w) + k)%nat.
Proof. simpl. rewrite length_app, repeat_length. reflexivity. Qed.

Lemma after_requests_sleep (k : nat) (url params : pyval) (d d' : Z) (w : world) :
  sleep d' (after_requests k url params d w)
  = (inr tt, after_requests k url params (d + d') w).
Proof. unfold sleep, after_requests. simpl. rewrite Z.add_assoc. reflexivity. Qed.

Lemma after_requests_more (k : nat) (url params : pyval) (d : Z) (w : world) :
  after_requests 1 url params 0 (after_requests k url params d w)
  = after_requests (S k) url params d w.
Proof.
  unfold after_requests. simpl. rewrite Z.add_0_r, <- app_assoc.
  f_equal. f_equal. symmetry. apply repeat_cons.
Qed.

Lemma stop_test (k : nat) :
  (Z.of_nat (S k) >=? stop_after_attempt)%Z = (3 <=? S k)%nat.
Proof.
  unfold stop_after_attempt. rewrite Z.geb_leb.
  destruct (Z.leb_spec 3 (Z.of_nat (S k))), (Nat.leb_spec 3 (S k));
    try reflexivity; lia.
Qed.

(** The attempt numbered [k + 1], started after [k] failed attempts and
    their waits. *)
Lemma retry_from (fuel k : nat) (url params : pyval) (w : world) :
  (k + fuel >= 2)%nat ->
  retry fuel (Z.of_nat (S k)) (fetch_attempt url params)
        (after_requests k url params (waited k) w)
  = if attempt_fails (http (length (requests_sent w) + k) url params)
    then if (3 <=? S k)%nat
         then (inl (RetryError
                      (Failed_to_fetch url
                         (cause (http (length (requests_sent w) + k) url params)))),
               after_requests (S k) url params (waited k) w)
         else retry (pred fuel) (Z.of_nat (S (S k))) (fetch_attempt url params)
                    (after_requests (S k) url params (waited (S k)) w)
    else (match http (length (requests_sent w) + k) url params with
          | Responds r => inr (payload r)
          | Raises e => inl e
          end,
          after_requests (S k) url params (waited k) w).
Proof.
  intros Hfuel.
  assert (Hstop : fuel = O -> (3 <=? S k)%nat = true).
  { intros ->. apply Nat.leb_le. lia. }
  destruct fuel as [|fuel]; cbn [retry]; unfold try_except;
    rewrite fetch_attempt_outcome, after_requests_length, after_requests_more;
    destruct (http _ url params) as [e|r] eqn:Ho; cbn [attempt_fails cause];
    try (destruct ((400 <=? status_code r)%Z && (status_code r <? 600)%Z));
    cbv beta iota.
  all: try reflexivity.
  all: rewrite stop_test.
  all: try rewrite (Hstop eq_refl).
  all: try reflexivity.
  all: destruct (3 <=? S k)%nat; try reflexivity.
  all: unfold bind; rewrite after_requests_sleep.
  all: cbn [pred waited].
  all: replace (Z.of_nat (S k) + 1)%Z with (Z.of_nat (S (S k))) by lia.
  all: reflexivity.
Qed.

Lemma after_no_request (url params : pyval) (w : world) :
  after_requests 0 url params (waited 0) w = w.
Proof.
  unfold after_requests. simpl. rewrite app_nil_r, Z.add_0_r. apply world_eta.
Qed.

(** [fetch] in closed form: the first of its three attempts that does not
    fail decides. *)
Lemma fetch_outcome (url params : pyval) (w : world) :
  fetch url params w
  = let o := fun k => http (length (requests_sent w) + k)%nat url params in
    let good := fun k => match o k with
                         | Responds r => inr (payload r)
                         | Raises e => inl e
                         end in
    if negb (attempt_fails (o 0%nat))
    then (good 0%nat, after_requests 1 url params (waited 0) w)
    else if negb (attempt_fails (o 1%nat))
    then (good 1%nat, after_requests 2 url params (waited 1) w)
    else if negb (attempt_fails (o 2%nat))
    then (good 2%nat, after_requests 3 url params (waited 2) w)
    else (inl (RetryError (Failed_to_fetch url (cause (o 2%nat)))),
          after_requests 3 url params (waited 2) w).
Proof.
  unfold fetch. rewrite <- (after_no_request url params w) at 1.
  change 1%Z with (Z.of_nat 1).
  rewrite (retry_from 3 0); [|lia]. cbv zeta.
  destruct (attempt_fails (http (length (requests_sent w) + 0) url params));
    [|reflexivity].
  cbn [Nat.leb pred negb].
  rewrite (retry_from 2 1); [|lia].
  destruct (attempt_fails (http (length (requests_sent w) + 1) url params));
    [|reflexivity].
  cbn [Nat.leb pred negb].
  rewrite (retry_from 1 2); [|lia].
  destruct (attempt_fails (http (length (requests_sent w) + 2) url params));
    reflexivity.
Qed.

(** X1. When the three attempts fail, [fetch] raises [RetryError] around
    the failure of the third one; exactly three requests were sent, and
    nothing is waited for after the last attempt. *)
Theorem fetch_gives_up_after_three_failures (url params : pyval) (w : world) :
  attempt_fails (http (length (requests_sent w)) url params) = true ->
  attempt_fails (http (S (length (requests_sent w))) url params) = true ->
  attempt_fails (http (S (S (length (requests_sent w)))) url params) = true ->
  fetch url params w
  = (inl (RetryError
            (Failed_to_fetch url
               (cause (http (S (S (length (requests_sent w)))) url params)))),
     after_requests 3 url params (wait_exponential 1 + wait_exponential 2) w).
Proof.
  intros H0 H1 H2. rewrite fetch_outcome. cbv beta zeta.
  rewrite Nat.add_0_r, Nat.add_1_r.
  replace (length (requests_sent w) + 2)%nat
    with (S (S (length (requests_sent w)))) by lia.
  rewrite H0, H1, H2. reflexivity.
Qed.

Lemma fetch_sends_one_to_three_requests_aux (url params : pyval) (w : world) :
  exists (k : nat) (d : Z),
    (1 <= k <= 3)%nat
    /\ snd (fetch url params w) = after_requests k url params d w.
Proof.
  rewrite fetch_outcome. cbv beta zeta.
  destruct (negb _); [exists 1%nat, (waited 0); split; [lia|reflexivity]|].
  destruct (negb _); [exists 2%nat, (waited 1); split; [lia|reflexivity]|].
  destruct (negb _); exists 3%nat, (waited 2); split; try lia; reflexivity.
Qed.

(** X2. Whatever the network does, one call of [fetch] sends one, two or
    three requests, all for the url and params it was given, waits 20
    seconds at most in all, and prints nothing. *)
Theorem fetch_sends_one_to_three_requests (url params : pyval) (w : world) :
  exists (k : nat) (d : Z),
    (1 <= k <= 3)%nat /\ (0 <= d <= 20)%Z
    /\ snd (fetch url params w) = after_requests k url params d w.
Proof.
  rewrite fetch_outcome. cbv beta zeta.
  assert (B : forall n, (2 <= wait_exponential n <= 10)%Z)
    by (intros n; unfold wait_exponential; lia).
  pose proof (B 1%Z) as B1. pose proof (B 2%Z) as B2.
  destruct (negb _).
  - exists 1%nat, (waited 0). simpl. repeat split; lia.
  - destruct (negb _).
    + exists 2%nat, (waited 1). cbn [waited Z.of_nat Pos.of_succ_nat].
      simpl snd. repeat split; lia.
    + destruct (negb _); exists 3%nat, (waited 2);
        cbn [waited Z.of_nat Pos.of_succ_nat Pos.succ]; simpl snd;
        repeat split; lia.
Qed.

(** X3. [fetch] returns the result of its first attempt that does not
    fail, at once: after [k] failed attempts ([k] is 0, 1 or 2) and a
    successful one, it has sent [k + 1] requests and no more. *)
Theorem fetch_returns_first_success (k : nat) (url params : pyval) (w : world)
    (r : response) :
  (k < 3)%nat ->
  (forall j, (j < k)%nat ->
     attempt_fails (http (length (requests_sent w) + j) url params) = true) ->
  http (length (requests_sent w) + k) url params = Responds r ->
  attempt_fails (Responds r) = false ->
  fetch url params w = (inr (payload r), after_requests (S k) url params (waited k) w).
Proof.
  intros Hk Hfail Hr Hok. rewrite fetch_outcome. cbv beta zeta.
  destruct k as [|[|[|k]]]; try lia.
  - rewrite Hr, Hok. reflexivity.
  - rewrite (Hfail 0%nat) by lia. rewrite Hr, Hok. reflexivity.
  - rewrite (Hfail 0%nat), (Hfail 1%nat) by lia. rewrite Hr, Hok. reflexivity.
Qed.

(** X4. Between two attempts tenacity waits at least 2 and at most 10
    seconds, whatever the number of the attempt. *)
Theorem wait_exponential_bounds (attempt_number : Z) :
  (2 <= wait_exponential attempt_number <= 10)%Z.
Proof. unfold wait_exponential. lia. Qed.

(** X5. On every string [strip_html] returns a text with no whitespace at
    either end, in which every whitespace character is a single space
    between two other characters, whatever the parser extracted. *)
Theorem strip_html_output_is_clean (x : string) :
  exists y,
    strip_html (PStr x) = inr y
    /\ lstrip y = y /\ rstrip y = y /\ tidy false y = true.
Proof.
  unfold strip_html. cbn [truthy BeautifulSoup].
  destruct (x =? ""); cbn [negb].
  - exists "". repeat split; reflexivity.
  - set (t := re_sub_spaces (get_text_sep_strip (soup_of_str x))).
    exists (strip t). split; [reflexivity|].
    assert (Hr : rstrip (strip t) = strip t).
    { unfold strip. apply rstrip_lstrip, rstrip_rstrip. }
    split; [|split].
    + unfold strip. apply lstrip_lstrip.
    + exact Hr.
    + unfold strip, t, re_sub_spaces.
      apply (tidy_lstrip false), tidy_rstrip, tidy_collapse.
Qed.

(* ================================================================== *)
(** ** Construction of a source *)

(** X6. A registered constructor, given a config object, raises [KeyError]
    for the first key it needs and does not find, and otherwise builds the
    source of that platform, with the type of the config and with
    [enabled] true when the config does not say; either way it sends no
    request and prints nothing. *)
Theorem constructor_needs_its_keys (platform_id : string)
    (source_class : pyval -> M NewsSource) (config : list (string * pyval))
    (w : world) :
  In (platform_id, source_class) SOURCE_MAP ->
  match first_missing (required_keys platform_id) config with
  | Some k => source_class (PDict config) w = (inl (KeyError k), w)
  | None =>
      exists source,
        source_class (PDict config) w = (inr source, w)
        /\ self_platform source = platform_id
        /\ Some (self_type source) = dict_lookup "type" config
        /\ self_enabled source = field_or "enabled" (PBool true) (PDict config)
  end.
Proof.
  intros Hin. simpl in Hin.
  repeat (destruct Hin as [Hin|Hin]; [inversion Hin; subst; clear Hin|]);
    try contradiction;
    unfold first_missing, required_keys; cbn [String.eqb Ascii.eqb Bool.eqb find];
    unfold ZhihuSource, WallStreetCNSource, HupuSource, ThePaperSource,
           HackerNewsSource, ProductHuntSource, GitHubSource, SspaiSource,
           NewsSource_init, getitem, get, lift, bind, ret, py_getitem, py_get,
           field_or;
    (destruct (dict_lookup "name" config); [|reflexivity]);
    (destruct (dict_lookup "icon" config); [|reflexivity]);
    (destruct (dict_lookup "type" config); [|reflexivity]);
    (destruct (dict_lookup "category" config); [|reflexivity]);
    cbn [find];
    try (destruct (dict_lookup "url" config); [|reflexivity]);
    try (destruct (dict_lookup "endpoints" config); [|reflexivity]);
    eexists; repeat split.
Qed.

(* ================================================================== *)
(** ** Sources of one request: responses of another shape *)

(** X7. Zhihu, ThePaper and Sspai do not catch the failure of their
    request: when [fetch] raises, the extraction raises the same error. *)
Theorem transport_failure_reaches_caller (self : NewsSource) (w w1 : world)
    (u params : pyval) (run : M (list NewsItem)) (e : exn) :
  single_request self w u params run ->
  fetch u params w = (inl e, w1) ->
  run w = (inl e, w1).
Proof.
  intros [u'|u'|u' p] Hf.
  - unfold Zhihu_fetch_api, bind. rewrite Hf. reflexivity.
  - unfold ThePaper_fetch_api, bind. rewrite Hf. reflexivity.
  - unfold Sspai_fetch_api, bind, lift, datetime_now, py_copy, py_setitem.
    cbv beta iota. rewrite Hf. reflexivity.
Qed.

(** X8. A response that is a JSON object without the key "data" gives the
    empty list, and no error. *)
Theorem response_without_data_gives_nothing (self : NewsSource) (w w1 : world)
    (u params : pyval) (run : M (list NewsItem)) (resp : list (string * pyval)) :
  single_request self w u params run ->
  fetch u params w = (inr (PDict resp), w1) ->
  dict_lookup "data" resp = None ->
  run w = (inr [], w1).
Proof.
  intros [u'|u'|u' p] Hf Hd.
  - unfold Zhihu_fetch_api, bind at 1. rewrite Hf.
    unfold contains, lift, bind. cbn. rewrite Hd. reflexivity.
  - unfold ThePaper_fetch_api, bind at 1. rewrite Hf.
    unfold contains, lift, bind. cbn. rewrite Hd. reflexivity.
  - unfold Sspai_fetch_api, bind, lift, datetime_now, py_copy, py_setitem.
    cbv beta iota. rewrite Hf.
    unfold contains, lift. cbn. rewrite Hd. reflexivity.
Qed.

(** X9. A response that is not a JSON object (the text of a page that is
    not JSON, a JSON array, a number, null) gives the empty list only when
    it is a text or an array in which "data" does not occur; otherwise the
    extraction raises [TypeError]. *)
Theorem response_of_other_shape (self : NewsSource) (w w1 : world)
    (u params : pyval) (run : M (list NewsItem)) (data : pyval) :
  single_request self w u params run ->
  fetch u params w = (inr data, w1) ->
  is_object data = false ->
  run w = (match py_contains "data" data with
           | inr false => inr []
           | _ => inl TypeError
           end, w1).
Proof.
  intros [u'|u'|u' p] Hf Hd.
  - unfold Zhihu_fetch_api, bind at 1. rewrite Hf.
    unfold contains, getitem, lift, bind.
    destruct data; try discriminate; cbn; try reflexivity;
      destruct (str_contains _ _) || destruct (existsb _ _); reflexivity.
  - unfold ThePaper_fetch_api, bind at 1. rewrite Hf.
    unfold contains, getitem, lift, bind.
    destruct data; try discriminate; cbn; try reflexivity;
      destruct (str_contains _ _) || destruct (existsb _ _); reflexivity.
  - unfold Sspai_fetch_api, bind, lift, datetime_now, py_copy, py_setitem.
    cbv beta iota. rewrite Hf.
    unfold contains, getitem, lift.
    destruct data; try discriminate; cbn; try reflexivity;
      destruct (str_contains _ _) || destruct (existsb _ _); reflexivity.
Qed.

(* ================================================================== *)
(** ** WallStreetCN: the edges *)

(** X10. [_parse_endpoint] returns the empty list, and raises nothing, on
    an object response that has no "data", or whose "data" is an object
    without "items", or when the endpoint is none of "live", "news" and
    "hot". *)
Theorem parse_endpoint_gives_nothing (self : NewsSource) (key : string)
    (resp : list (string * pyval)) (w : world) :
  dict_lookup "data" resp = None
  \/ (exists d,
        dict_lookup "data" resp = Some (PDict d)
        /\ (dict_lookup "items" d = None
            \/ (key <> "live" /\ key <> "news" /\ key <> "hot"))) ->
  WallStreetCN_parse_endpoint self key (PDict resp) w = (inr [], w).
Proof.
  unfold WallStreetCN_parse_endpoint, contains, getitem, lift, bind, ret.
  intros [Hd | [d [Hd [Hi | [Hl [Hn Hh]]]]]]; cbn; rewrite Hd; cbn.
  - reflexivity.
  - rewrite Hi. reflexivity.
  - apply String.eqb_neq in Hl, Hn, Hh. rewrite Hl, Hn, Hh.
    destruct (dict_lookup "items" d); reflexivity.
Qed.

(** X11. When every endpoint configuration is an object with a url,
    [WallStreetCNSource._fetch_api] raises nothing, whatever the network
    answers: an endpoint whose request fails, or whose response makes the
    parsing raise, is printed and contributes no Item, and the others are
    run in their order. *)
Theorem wallstreetcn_absorbs_request_and_parse_errors (self : NewsSource)
    (endpoints : list (string * pyval)) (w : world) :
  Forall (fun entry => has_url (snd entry) = true) endpoints ->
  WallStreetCN_fetch_api self (PDict endpoints) w
  = (inr (fst (thread (endpoint_contribution self) endpoints w)),
     snd (thread (endpoint_contribution self) endpoints w)).
Proof.
  intros H. unfold WallStreetCN_fetch_api, lift, bind. cbn [py_items].
  apply (for_thread (endpoint_contribution self)
           (fun entry => has_url (snd entry) = true) (endpoint_step self)
           endpoints
           (fun x acc w Hx => endpoint_step_contributes self x acc w Hx) H [] w).
Qed.

(** X12. An endpoint configuration without a url is not absorbed: the url
    is read before the [try], so [_fetch_api] raises at that endpoint
    ([KeyError] for an object, [TypeError] for another value), the Items
    of the endpoints before it are lost and the endpoints after it are not
    requested. *)
Theorem endpoint_without_url_aborts (self : NewsSource)
    (pre post : list (string * pyval)) (key : string) (config : pyval)
    (w : world) :
  Forall (fun entry => has_url (snd entry) = true) pre ->
  has_url config = false ->
  WallStreetCN_fetch_api self (PDict (pre ++ (key, config) :: post)) w
  = (inl (if is_object config then KeyError "url" else TypeError),
     snd (thread (endpoint_contribution self) pre w)).
Proof.
  intros Hpre Hc. unfold WallStreetCN_fetch_api, lift, bind at 1.
  cbn [py_items]. rewrite for_app.
  rewrite (for_thread (endpoint_contribution self)
             (fun entry => has_url (snd entry) = true) (endpoint_step self) pre
             (fun x acc w Hx => endpoint_step_contributes self x acc w Hx)
             Hpre [] w).
  cbn [for_]. unfold bind at 1.
  unfold endpoint_step, getitem, lift, bind at 1, py_getitem.
  destruct config; try reflexivity.
  simpl in Hc. destruct (dict_lookup "url" d); [discriminate|reflexivity].
Qed.

(* ================================================================== *)
(** ** What every Item of a source carries *)

Lemma bind_inr {A B} (c : M A) (k : A -> M B) (w w' : world) (b : B) :
  bind c k w = (inr b, w') ->
  exists a w1, c w = (inr a, w1) /\ k a w1 = (inr b, w').
Proof.
  unfold bind. destruct (c w) as [[e|a] w1]; [discriminate|].
  intros H. exists a, w1. split; [reflexivity|exact H].
Qed.

(** A property of the list a loop builds, kept by every turn that does not
    raise, holds of what the loop returns. *)
Lemma for_invariant {X S} (P : S -> Prop) (xs : list X) (body : X -> S -> M S) :
  (forall x acc w r w', P acc -> body x acc w = (inr r, w') -> P r) ->
  forall acc w r w', P acc -> for_ xs body acc w = (inr r, w') -> P r.
Proof.
  intros Hb. induction xs as [|x xs IH]; intros acc w r w' Hacc H; simpl in H.
  - inversion H; subst. exact Hacc.
  - apply bind_inr in H. destruct H as [a [w1 [H1 H2]]].
    apply (IH a w1 r w'); [|exact H2]. apply (Hb x acc w a w1); assumption.
Qed.

(** Going through a body that returned: each step that could have raised
    did not. *)
Ltac returned H :=
  cbv beta iota in H;
  repeat (match type of H with
          | context [match ?r with _ => _ end] =>
              destruct r eqn:?; try discriminate H
          | context [if ?b then _ else _] =>
              destruct b eqn:?; try discriminate H
          end; cbv beta iota in H);
  inversion H; subst; clear H.

Ltac kept :=
  first [ assumption
        | apply Forall_app; split; [assumption|]; constructor; [|constructor] ].

Lemma new_item_of (self : NewsSource) (t u c : pyval) (now : Z) :
  truthy t = true -> item_of self (new_item self t u c now).
Proof. intros H. unfold item_of. simpl. repeat split; [exact H|discriminate]. Qed.

Lemma truthy_of_test (v : pyval) : negb (truthy v) = false -> truthy v = true.
Proof. destruct (truthy v); [reflexivity|discriminate]. Qed.

Lemma nonempty_truthy (s : string) : (s =? "") = false -> truthy (PStr s) = true.
Proof. intros H. simpl. rewrite H. reflexivity. Qed.

Lemma Zhihu_record_keeps (self : NewsSource) (x : pyval) (acc r : list NewsItem)
    (w w' : world) :
  Forall (item_of self) acc ->
  Zhihu_record self x acc w = (inr r, w') -> Forall (item_of self) r.
Proof.
  intros Hacc H. unfold Zhihu_record, get, lift, bind, ret, datetime_now in H.
  returned H; kept; apply new_item_of, truthy_of_test; assumption.
Qed.

Lemma ThePaper_record_keeps (self : NewsSource) (x : pyval) (acc r : list NewsItem)
    (w w' : world) :
  Forall (item_of self) acc ->
  ThePaper_record self x acc w = (inr r, w') -> Forall (item_of self) r.
Proof.
  intros Hacc H. unfold ThePaper_record, get, lift, bind, ret, datetime_now in H.
  returned H; kept; apply new_item_of, truthy_of_test; assumption.
Qed.

Lemma Sspai_record_keeps (self : NewsSource) (x : pyval) (acc r : list NewsItem)
    (w w' : world) :
  Forall (item_of self) acc ->
  Sspai_record self x acc w = (inr r, w') -> Forall (item_of self) r.
Proof.
  intros Hacc H. unfold Sspai_record, get, lift, bind, ret, datetime_now in H.
  returned H; kept; apply new_item_of, truthy_of_test; assumption.
Qed.

Lemma article_record_keeps (self : NewsSource) (x : pyval) (acc r : list NewsItem)
    (w w' : world) :
  Forall (item_of self) acc ->
  article_record self x acc w = (inr r, w') -> Forall (item_of self) r.
Proof.
  intros Hacc H. unfold article_record, get, lift, bind, ret, datetime_now in H.
  returned H; kept; apply new_item_of, truthy_of_test; assumption.
Qed.

Lemma live_record_keeps (self : NewsSource) (x : pyval) (acc r : list NewsItem)
    (w w' : world) :
  Forall (item_of self) acc ->
  live_record self x acc w = (inr r, w') -> Forall (item_of self) r.
Proof.
  intros Hacc H. unfold live_record, get, lift, bind, ret, datetime_now in H.
  returned H; kept; apply new_item_of, nonempty_truthy; assumption.
Qed.

Ltac steps H :=
  cbv beta iota in H;
  repeat (match type of H with
          | context [match ?r with _ => _ end] =>
              destruct r eqn:?; try discriminate H
          | context [if ?b then _ else _] =>
              destruct b eqn:?; try discriminate H
          end; cbv beta iota in H).

(** After the steps of an extraction, what is left is the empty list or
    the loop over the records. *)
Ltac loop_keeps H lemma :=
  first [ inversion H; subst; constructor; fail
        | eapply (for_invariant (Forall _));
          [ intros ? ? ? ? ? ? ?; eapply lemma; eassumption
          | constructor
          | exact H ] ].

Lemma Zhihu_items (self : NewsSource) (u : pyval) (w w' : world)
    (r : list NewsItem) :
  Zhihu_fetch_api self u w = (inr r, w') -> Forall (item_of self) r.
Proof.
  intros H. unfold Zhihu_fetch_api, contains, getitem, iter, lift, bind, ret in H.
  steps H; loop_keeps H Zhihu_record_keeps.
Qed.

Lemma ThePaper_items (self : NewsSource) (u : pyval) (w w' : world)
    (r : list NewsItem) :
  ThePaper_fetch_api self u w = (inr r, w') -> Forall (item_of self) r.
Proof.
  intros H.
  unfold ThePaper_fetch_api, contains, getitem, iter, lift, bind, ret in H.
  steps H; loop_keeps H ThePaper_record_keeps.
Qed.

Lemma Sspai_items (self : NewsSource) (u p : pyval) (w w' : world)
    (r : list NewsItem) :
  Sspai_fetch_api self u p w = (inr r, w') -> Forall (item_of self) r.
Proof.
  intros H.
  unfold Sspai_fetch_api, contains, getitem, iter, lift, bind, ret,
         datetime_now in H.
  steps H; loop_keeps H Sspai_record_keeps.
Qed.

Lemma parse_endpoint_items (self : NewsSource) (key : string) (data : pyval)
    (w w' : world) (r : list NewsItem) :
  WallStreetCN_parse_endpoint self key data w = (inr r, w') ->
  Forall (item_of self) r.
Proof.
  intros H.
  unfold WallStreetCN_parse_endpoint, contains, getitem, iter, lift, bind,
         ret in H.
  steps H;
    first [ loop_keeps H live_record_keeps | loop_keeps H article_record_keeps ].
Qed.

Lemma endpoint_step_keeps (self : NewsSource) (entry : string * pyval)
    (acc r : list NewsItem) (w w' : world) :
  Forall (item_of self) acc ->
  endpoint_step self entry acc w = (inr r, w') -> Forall (item_of self) r.
Proof.
  intros Hacc H. destruct entry as [key config].
  unfold endpoint_step, getitem, get, lift, bind at 1 2, try_except in H.
  cbv beta iota in H.
  destruct (py_getitem config "url"); [discriminate|].
  destruct (py_get config "params" (PDict [])); [discriminate|].
  match type of H with
  | context [match ?c with _ => _ end] => destruct c as [[e|x] w1] eqn:E
  end.
  - unfold print, bind, ret in H. inversion H; subst. assumption.
  - inversion H; subst.
    apply bind_inr in E. destruct E as [data [w2 [_ E]]].
    apply bind_inr in E. destruct E as [parsed [w3 [Hp E]]].
    inversion E; subst. apply Forall_app. split; [assumption|].
    eapply parse_endpoint_items; eassumption.
Qed.

Lemma WallStreetCN_items (self : NewsSource) (e : pyval) (w w' : world)
    (r : list NewsItem) :
  WallStreetCN_fetch_api self e w = (inr r, w') -> Forall (item_of self) r.
Proof.
  intros H. unfold WallStreetCN_fetch_api, lift, bind in H.
  steps H; loop_keeps H endpoint_step_keeps.
Qed.

Ltac html_body :=
  let Hacc := fresh "Hacc" in
  let Hb := fresh "Hb" in
  intros ? ? ? ? ? Hacc Hb;
  unfold bind, ret, datetime_now in Hb;
  returned Hb; kept.

Lemma html_items (self : NewsSource) (u : pyval) (run : M (list NewsItem))
    (w w' : world) (r : list NewsItem) :
  html_extraction self u run ->
  run w = (inr r, w') -> Forall (item_of self) r.
Proof.
  intros [-> | [-> | [-> | ->]]] H;
    unfold Hupu_fetch_html, HackerNews_fetch_html, ProductHunt_fetch_html,
           GitHub_fetch_html, lift, bind at 1 2 in H;
    steps H;
    (eapply (for_invariant (Forall (item_of self))); [|constructor|exact H]);
    html_body; apply new_item_of, nonempty_truthy; assumption.
Qed.

Lemma fetch_items (self : NewsSource) (w w' : world) (items : list NewsItem) :
  NewsSource_fetch self w = (inr (Some items), w') ->
  Forall (item_of self) items.
Proof.
  unfold NewsSource_fetch, _fetch_api, _fetch_html. intros H.
  destruct (negb (truthy (self_enabled self)));
    [inversion H; constructor|].
  destruct (py_eq_str (self_type self) "api").
  - destruct (self_variant self); try discriminate;
      apply bind_inr in H; destruct H as [r [w1 [H1 H2]]];
      inversion H2; subst.
    + eapply Zhihu_items; eassumption.
    + eapply WallStreetCN_items; eassumption.
    + eapply ThePaper_items; eassumption.
    + eapply Sspai_items; eassumption.
  - destruct (py_eq_str (self_type self) "html");
      [|inversion H; constructor].
    destruct (self_variant self) eqn:V; try discriminate;
      apply bind_inr in H; destruct H as [r [w1 [H1 H2]]];
      inversion H2; subst;
      eapply (html_items self); try eassumption; unfold html_extraction; auto.
Qed.

Ltac absolute_url :=
  eexists; split; [reflexivity|];
  match goal with
  | Hc : negb (?h =? "") && negb (startswith ?h "http") = false |- _ =>
      destruct (h =? "") eqn:?E;
      [ left; apply String.eqb_eq; exact E
      | right; simpl in Hc; destruct (startswith h "http");
        [reflexivity|discriminate] ]
  | _ => first [right; reflexivity | left; reflexivity]
  end.

(** Every url these three sources give is empty or starts with "http". *)
Lemma urls_absolute_or_empty (self : NewsSource) (u : pyval)
    (w w1 : world) (html : string) (run : M (list NewsItem)) :
  rewrites_hrefs self u run ->
  fetch u PNone w = (inr (PStr html), w1) ->
  exists items,
    run w = (inr items, w1) /\ Forall absolute_or_empty items.
Proof.
  intros Hrun Hf.
  assert (Hx : html_extraction self u run)
    by (unfold html_extraction; destruct Hrun as [-> | [-> | ->]]; auto).
  destruct (html_extraction_total self u w w1 run html Hx Hf) as [items H].
  exists items. split; [exact H|].
  destruct Hrun as [-> | [-> | ->]];
    unfold Hupu_fetch_html, ProductHunt_fetch_html, GitHub_fetch_html,
           lift, bind at 1 2 in H;
    rewrite Hf in H; cbn [BeautifulSoup] in H; cbv beta iota in H;
    (eapply (for_invariant (Forall absolute_or_empty)); [|constructor|exact H]);
    html_body; absolute_url.
Qed.

(* ================================================================== *)
(** ** The url and content of the Items *)

Lemma ThePaper_record_runs (self : NewsSource) (w : world) (r : pyval)
    (acc : list NewsItem) :
  is_object r = true ->
  ThePaper_record self r acc w
  = (inr (acc ++ if truthy (field_or "name" (PStr "") r)
                 then [new_item self (field_or "name" (PStr "") r)
                                (thepaper_url r) (PStr "") (clock w)]
                 else []), w).
Proof.
  destruct r; try discriminate. intros _.
  unfold ThePaper_record, thepaper_url, get, lift, bind, ret, datetime_now,
         py_get, field_or.
  destruct (truthy _); cbn; rewrite ?app_nil_r; reflexivity.
Qed.

(** X15. ThePaper gives every Item the permalink of its record: the
    article address followed by the [contId] of the record, and the empty
    string when the record has no [contId] or an empty one. *)
Theorem thepaper_url_from_cont_id (self : NewsSource) (u : pyval) (w w1 : world)
    (resp data : list (string * pyval)) (records : list pyval) :
  fetch u PNone w = (inr (PDict resp), w1) ->
  dict_lookup "data" resp = Some (PDict data) ->
  dict_lookup "hotNews" data = Some (PList records) ->
  Forall (fun r => is_object r = true) records ->
  exists items,
    ThePaper_fetch_api self u w = (inr items, w1)
    /\ map url items
       = map thepaper_url
             (filter (fun r => truthy (field_or "name" (PStr "") r)) records)
    /\ Forall (fun it => content it = PStr "") items.
Proof.
  intros Hf Hd Hn Ho.
  rewrite (ThePaper_fetch_api_loop self u w w1 resp data records Hf Hd Hn).
  set (g := fun (r : pyval) (w : world) =>
              if truthy (field_or "name" (PStr "") r)
              then [new_item self (field_or "name" (PStr "") r)
                             (thepaper_url r) (PStr "") (clock w)]
              else []).
  exists (flat_map (fun r => g r w1) records). split; [|split].
  - apply (for_collect g records (ThePaper_record self) w1).
    eapply Forall_impl; [|exact Ho]. intros r Hr acc.
    apply ThePaper_record_runs, Hr.
  - clear. induction records as [|r rs IH]; [reflexivity|].
    simpl. rewrite map_app, IH. unfold g.
    destruct (truthy (field_or "name" (PStr "") r)); reflexivity.
  - clear. induction records as [|r rs IH]; [constructor|].
    simpl. apply Forall_app. split; [|exact IH]. unfold g.
    destruct (truthy (field_or "name" (PStr "") r)); repeat constructor.
Qed.

Lemma Zhihu_record_runs (self : NewsSource) (w : world) (r : pyval)
    (acc : list NewsItem) :
  zhihu_title r <> None ->
  Zhihu_record self r acc w
  = (inr (acc ++ if well_formed zhihu_title r
                 then [new_item self
                                (field_or "text" (PStr "")
                                   (field_or "title_area" (PDict [])
                                      (zhihu_target r)))
                                (field_or "url" (PStr "") (zhihu_target r))
                                (zhihu_excerpt r) (clock w)]
                 else []), w).
Proof.
  intros H. destruct r; try (exfalso; apply H; reflexivity).
  unfold well_formed, zhihu_excerpt, zhihu_target.
  unfold zhihu_title, object_field, string_field, Zhihu_record in *.
  unfold get, lift, bind, ret, datetime_now, py_get, field_or.
  fields; rewrite ?app_nil_r; reflexivity.
Qed.

(** X16. Zhihu takes the url of an Item from [target.url] and its content
    from [target.excerpt_area.text] of the record, each the empty string
    when the record does not have it. *)
Theorem zhihu_url_and_content (self : NewsSource) (u : pyval) (w w1 : world)
    (resp : list (string * pyval)) (records : list pyval) :
  fetch u PNone w = (inr (PDict resp), w1) ->
  dict_lookup "data" resp = Some (PList records) ->
  conform zhihu_title records ->
  exists items,
    Zhihu_fetch_api self u w = (inr items, w1)
    /\ map url items
       = map (fun r => field_or "url" (PStr "") (zhihu_target r))
             (filter (well_formed zhihu_title) records)
    /\ map content items
       = map zhihu_excerpt (filter (well_formed zhihu_title) records).
Proof.
  intros Hf Hd Hc.
  rewrite (Zhihu_fetch_api_loop self u w w1 resp records Hf Hd).
  set (g := fun (r : pyval) (w : world) =>
              if well_formed zhihu_title r
              then [new_item self
                             (field_or "text" (PStr "")
                                (field_or "title_area" (PDict [])
                                   (zhihu_target r)))
                             (field_or "url" (PStr "") (zhihu_target r))
                             (zhihu_excerpt r) (clock w)]
              else []).
  exists (flat_map (fun r => g r w1) records). split; [|split].
  - apply (for_collect g records (Zhihu_record self) w1).
    eapply Forall_impl; [|exact Hc]. intros r Hr acc.
    apply Zhihu_record_runs, Hr.
  - clear. induction records as [|r rs IH]; [reflexivity|].
    simpl. rewrite map_app, IH. unfold g.
    destruct (well_formed zhihu_title r); reflexivity.
  - clear. induction records as [|r rs IH]; [reflexivity|].
    simpl. rewrite map_app, IH. unfold g.
    destruct (well_formed zhihu_title r); reflexivity.
Qed.

(* ================================================================== *)
(** ** The request of Sspai *)

Lemma dict_lookup_set_same (k : string) (v : pyval) (d : list (string * pyval)) :
  dict_lookup k (dict_set k v d) = Some v.
Proof.
  induction d as [|[k' v'] d IH]; simpl.
  - rewrite String.eqb_refl. reflexivity.
  - destruct (k' =? k) eqn:E; simpl; rewrite E; [reflexivity|exact IH].
Qed.

Lemma dict_lookup_set_other (k k0 : string) (v : pyval)
    (d : list (string * pyval)) :
  k0 <> k -> dict_lookup k0 (dict_set k v d) = dict_lookup k0 d.
Proof.
  intros Hne. induction d as [|[k' v'] d IH]; simpl.
  - destruct (k =? k0) eqn:E; [|reflexivity].
    apply String.eqb_eq in E. congruence.
  - destruct (k' =? k) eqn:E; simpl.
    + apply String.eqb_eq in E. subst k'.
      destruct (k =? k0) eqn:E0; [|reflexivity].
      apply String.eqb_eq in E0. congruence.
    + rewrite IH. reflexivity.
Qed.

(** A loop whose body leaves the world alone leaves the world alone. *)
Lemma for_world {X S} (xs : list X) (body : X -> S -> M S) :
  (forall x acc w, snd (body x acc w) = w) ->
  forall acc w, snd (for_ xs body acc w) = w.
Proof.
  intros Hb. induction xs as [|x xs IH]; intros acc w; simpl; [reflexivity|].
  unfold bind. pose proof (Hb x acc w) as H.
  destruct (body x acc w) as [[e|a] w1]; simpl in H; subst w1;
    [reflexivity|apply IH].
Qed.

Lemma Sspai_record_world (self : NewsSource) (x : pyval) (acc : list NewsItem)
    (w : world) :
  snd (Sspai_record self x acc w) = w.
Proof.
  unfold Sspai_record, get, lift, bind, ret, datetime_now.
  destruct x; try reflexivity. cbn.
  destruct (negb (truthy _)); reflexivity.
Qed.

(** X17. Sspai sends its request with the configured params and, with
    them, [created_at] set to the time of the call: a configured
    [created_at] is replaced, every other param is sent as configured. The
    source sends the one to three requests of that single [fetch], and
    prints nothing. *)
Theorem sspai_request_carries_created_at (self : NewsSource) (u : pyval)
    (params : list (string * pyval)) (w : world) :
  let sent_params := dict_set "created_at" (PInt (clock w)) params in
  dict_lookup "created_at" sent_params = Some (PInt (clock w))
  /\ (forall k, k <> "created_at" ->
                dict_lookup k sent_params = dict_lookup k params)
  /\ exists (k : nat) (d : Z),
       (1 <= k <= 3)%nat
       /\ snd (Sspai_fetch_api self u (PDict params) w)
          = after_requests k u (PDict sent_params) d w.
Proof.
  intros sent_params. split; [apply dict_lookup_set_same|].
  split; [intros k Hk; apply dict_lookup_set_other; exact Hk|].
  destruct (fetch_sends_one_to_three_requests_aux u (PDict sent_params) w)
    as [k [d [Hk Hw]]].
  exists k, d. split; [exact Hk|].
  unfold Sspai_fetch_api, bind, lift, datetime_now, py_copy, py_setitem.
  cbv beta iota. fold sent_params.
  destruct (fetch u (PDict sent_params) w) as [[e|data] w1]; simpl in Hw;
    subst w1; [reflexivity|].
  unfold contains, getitem, iter, lift.
  destruct (py_contains "data" data) as [e|[|]]; try reflexivity.
  destruct (py_getitem data "data") as [e|recs]; [reflexivity|].
  destruct (py_iter recs) as [e|l]; [reflexivity|].
  apply for_world. intros. apply Sspai_record_world.
Qed.

(** X18. When the configured params of Sspai are not an object, the source
    raises before any request is sent. *)
Theorem sspai_params_must_be_object (self : NewsSource) (u p : pyval) (w : world) :
  is_object p = false ->
  exists e, Sspai_fetch_api self u p w = (inl e, w).
Proof.
  intros Hp. unfold Sspai_fetch_api, bind, lift, datetime_now, py_copy, py_setitem.
  destruct p; try discriminate; eexists; reflexivity.
Qed.

(** X13. What [fetch()] returns is a list of Items each of which has a
    title that is not empty, a timestamp, and the platform id, the icon and
    the category of the source; or it is [None], when the class of the
    source does not define the extraction its type asks for, and then no
    request was sent. *)
Theorem every_item_is_of_its_source (self : NewsSource) (w w' : world)
    (returned_value : option (list NewsItem)) :
  NewsSource_fetch self w = (inr returned_value, w') ->
  match returned_value with
  | Some items => Forall (item_of self) items
  | None => w' = w
  end.
Proof.
  intros H. destruct returned_value as [items|].
  - eapply fetch_items; exact H.
  - unfold NewsSource_fetch, _fetch_api, _fetch_html in H.
    destruct (negb (truthy (self_enabled self))); [discriminate|].
    destruct (py_eq_str (self_type self) "api");
      [|destruct (py_eq_str (self_type self) "html"); [|discriminate]];
      destruct (self_variant self);
      try (inversion H; reflexivity);
      apply bind_inr in H; destruct H as [r [w1 [_ H]]]; discriminate.
Qed.

(* ================================================================== *)
(** ** The aggregator: the edges *)

Lemma fetch_all_news_loop (config platforms : list (string * pyval)) (w : world) :
  sources_json = inr (PDict config) ->
  dict_lookup "platforms" config = Some (PDict platforms) ->
  fetch_all_news w = for_ platforms platform_step [] w.
Proof.
  intros Hj Hp.
  unfold fetch_all_news, load_config, getitem, lift, bind, py_getitem, py_items.
  rewrite Hj, Hp. reflexivity.
Qed.

(** X19. When every platform of the configuration is disabled, the
    aggregator returns the empty list; it builds no source, sends no
    request and prints nothing. *)
Theorem all_disabled_gives_nothing (config platforms : list (string * pyval))
    (w : world) :
  sources_json = inr (PDict config) ->
  dict_lookup "platforms" config = Some (PDict platforms) ->
  Forall (fun entry =>
            is_object (snd entry) = true
            /\ truthy (field_or "enabled" (PBool true) (snd entry)) = false)
         platforms ->
  fetch_all_news w = (inr [], w).
Proof.
  intros Hj Hp Hd. rewrite (fetch_all_news_loop config platforms w Hj Hp).
  assert (H : for_ platforms platform_step [] w
              = (inr ([] ++ flat_map (fun _ => []) platforms), w)).
  { apply (for_collect (fun _ _ => []) platforms platform_step w).
    eapply Forall_impl; [|exact Hd]. intros [id cfg] [Ho He] acc.
    destruct cfg; try discriminate.
    unfold platform_step, get, lift, bind, ret, py_get. simpl in He.
    unfold field_or in He. rewrite He. rewrite app_nil_r. reflexivity. }
  rewrite H. f_equal. f_equal. clear. induction platforms; [reflexivity|].
  simpl. exact IHplatforms.
Qed.

(** X20. A platform entry that is not an object is not absorbed: its
    [enabled] flag is read before the [try], so the aggregator raises
    [AttributeError] at that entry; the Items of the platforms before it
    are lost and the platforms after it are not run. *)
Theorem platform_entry_must_be_object (config pre post : list (string * pyval))
    (platform_id : string) (bad : pyval) (w : world) :
  sources_json = inr (PDict config) ->
  dict_lookup "platforms" config
  = Some (PDict (pre ++ (platform_id, bad) :: post)) ->
  Forall (fun entry => is_object (snd entry) = true) pre ->
  is_object bad = false ->
  fetch_all_news w
  = (inl (AttributeError "get"), snd (thread contribution pre w)).
Proof.
  intros Hj Hp Hpre Hbad. rewrite (fetch_all_news_loop config _ w Hj Hp).
  rewrite for_app.
  rewrite (for_thread contribution (fun entry => is_object (snd entry) = true)
             platform_step pre
             (fun x acc w Hx => platform_step_contributes x acc w Hx) Hpre [] w).
  cbn [for_]. unfold bind at 1.
  unfold platform_step, get, lift, bind at 1, py_get.
  destruct bad; try discriminate; reflexivity.
Qed.

Lemma first_missing_none (keys : list string) (config : list (string * pyval)) :
  first_missing keys config = None ->
  forall k, In k keys -> exists v, dict_lookup k config = Some v.
Proof.
  intros H k Hin. unfold first_missing in H.
  pose proof (find_none _ _ H k Hin) as Hk. simpl in Hk.
  destruct (dict_lookup k config) as [v|]; [exists v; reflexivity|discriminate].
Qed.

(** X21. A platform whose configured type is the kind its class does not
    define ("html" for Zhihu, "api" for Hupu, ...) yields nothing:
    [fetch()] returns [None], [len] raises [TypeError], and the aggregator
    prints the error and goes on, without a request. *)
Theorem kind_mismatch_yields_nothing (platform_id type : string)
    (source_class : pyval -> M NewsSource) (config : list (string * pyval))
    (acc : list NewsItem) (w : world) :
  In (platform_id, source_class) SOURCE_MAP ->
  first_missing (required_keys platform_id) config = None ->
  truthy (field_or "enabled" (PBool true) (PDict config)) = true ->
  dict_lookup "type" config = Some (PStr type) ->
  type = "api" \/ type = "html" ->
  type <> source_kind platform_id ->
  platform_step (platform_id, PDict config) acc w
  = (inr acc, printed (Error_fetching_from platform_id TypeError) w).
Proof.
  intros Hin Hmiss He Ht Hty Hk.
  pose proof (first_missing_none _ _ Hmiss) as Hall. clear Hmiss.
  simpl in Hin.
  repeat (destruct Hin as [Hin|Hin]; [inversion Hin; subst; clear Hin|]);
    try contradiction;
    (destruct Hty as [-> | ->]; [|]; try (exfalso; apply Hk; reflexivity));
    (destruct (Hall "name") as [vn Hn]; [simpl; auto 10|]);
    (destruct (Hall "icon") as [vi Hi]; [simpl; auto 10|]);
    (destruct (Hall "category") as [vc Hc]; [simpl; auto 10|]);
    first [ destruct (Hall "url") as [vu Hu]; [simpl; auto 10; fail|]
          | destruct (Hall "endpoints") as [vu Hu]; [simpl; auto 10; fail|] ];
    unfold platform_step, get, lift, py_get; unfold bind at 1;
    unfold field_or in He; rewrite He;
    cbn [negb SOURCE_MAP_get SOURCE_MAP String.eqb Ascii.eqb Bool.eqb];
    unfold try_except, try_platform,
           ZhihuSource, WallStreetCNSource, HupuSource, ThePaperSource,
           HackerNewsSource, ProductHuntSource, GitHubSource, SspaiSource,
           NewsSource_init, getitem, get, lift, bind, ret, py_getitem, py_get;
    rewrite Ht, Hn, Hi, Hc, Hu; cbv beta iota;
    unfold NewsSource_fetch, with_variant; cbn [self_enabled self_type];
    rewrite He; reflexivity.
Qed.

Lemma SOURCE_MAP_get_in (platform_id : string)
    (m : list (string * (pyval -> M NewsSource)))
    (source_class : pyval -> M NewsSource) :
  SOURCE_MAP_get platform_id m = Some source_class ->
  In (platform_id, source_class) m.
Proof.
  induction m as [|[k c] m IH]; simpl; [discriminate|].
  destruct (k =? platform_id) eqn:E.
  - intros H. inversion H; subst. apply String.eqb_eq in E. subst. left.
    reflexivity.
  - intros H. right. apply IH, H.
Qed.

Lemma constructor_platform (platform_id : string)
    (source_class : pyval -> M NewsSource) (config : pyval) (w w' : world)
    (source : NewsSource) :
  In (platform_id, source_class) SOURCE_MAP ->
  source_class config w = (inr source, w') ->
  self_platform source = platform_id.
Proof.
  intros Hin H.
  assert (Hinit : forall s w0 w1,
             NewsSource_init platform_id config w0 = (inr s, w1) ->
             self_platform s = platform_id).
  { intros s w0 w1 Hi. unfold NewsSource_init in Hi.
    repeat (apply bind_inr in Hi; destruct Hi as [? [? [_ Hi]]]).
    inversion Hi; subst. reflexivity. }
  simpl in Hin.
  repeat (destruct Hin as [Hin|Hin]; [inversion Hin; subst; clear Hin|]);
    try contradiction;
    unfold ZhihuSource, WallStreetCNSource, HupuSource, ThePaperSource,
           HackerNewsSource, ProductHuntSource, GitHubSource, SspaiSource in H;
    apply bind_inr in H; destruct H as [s [w1 [Hi H]]];
    apply Hinit in Hi;
    repeat (apply bind_inr in H; destruct H as [? [? [_ H]]]);
    inversion H; subst; exact Hi.
Qed.

(** The same as [for_invariant], for a body that keeps the property on the
    elements of the list. *)
Lemma for_invariant_in {X S} (P : S -> Prop) (xs : list X) (body : X -> S -> M S) :
  (forall x acc w r w', In x xs -> P acc -> body x acc w = (inr r, w') -> P r) ->
  forall acc w r w', P acc -> for_ xs body acc w = (inr r, w') -> P r.
Proof.
  induction xs as [|x xs IH]; intros Hb acc w r w' Hacc H; simpl in H.
  - inversion H; subst. exact Hacc.
  - apply bind_inr in H. destruct H as [a [w1 [H1 H2]]].
    apply (IH (fun y acc w r w' Hy => Hb y acc w r w' (or_intror Hy)) a w1 r w');
      [|exact H2].
    apply (Hb x acc w a w1); [left; reflexivity|assumption|assumption].
Qed.

Lemma platform_step_keeps (platforms : list (string * pyval))
    (entry : string * pyval) (acc r : list NewsItem) (w w' : world) :
  In entry platforms ->
  Forall (fun it => from_platform platforms it
                    /\ truthy (title it) = true /\ timestamp it <> None) acc ->
  platform_step entry acc w = (inr r, w') ->
  Forall (fun it => from_platform platforms it
                    /\ truthy (title it) = true /\ timestamp it <> None) r.
Proof.
  intros Hin Hacc H. destruct entry as [id cfg]. unfold platform_step in H.
  apply bind_inr in H. destruct H as [en [w1 [_ H]]].
  destruct (negb (truthy en)); [inversion H; subst; assumption|].
  destruct (SOURCE_MAP_get id SOURCE_MAP) as [cls|] eqn:Hs.
  - unfold try_except in H.
    destruct (try_platform cls id cfg acc w1) as [[e|x] w2] eqn:E.
    + unfold bind, print, ret in H. inversion H; subst. assumption.
    + inversion H; subst. unfold try_platform in E.
      apply bind_inr in E. destruct E as [source [w3 [Hc E]]].
      apply bind_inr in E. destruct E as [items [w4 [Hf E]]].
      apply bind_inr in E. destruct E as [n [w5 [Hl E]]].
      apply bind_inr in E. destruct E as [u [w6 [_ E]]].
      inversion E; subst. destruct items as [l|]; [|discriminate].
      apply Forall_app. split; [assumption|].
      pose proof (fetch_items source w3 w4 l Hf) as Hitems.
      apply SOURCE_MAP_get_in in Hs.
      pose proof (constructor_platform id cls cfg w1 w3 source Hs Hc) as Hp.
      eapply Forall_impl; [|exact Hitems].
      intros it [Ht [Hts [Hpl _]]]. split; [|split; assumption].
      unfold from_platform. rewrite Hpl, Hp. split.
      * apply (in_map fst) in Hin. exact Hin.
      * apply (in_map fst) in Hs. exact Hs.
  - unfold bind, print, ret in H. inversion H; subst. assumption.
Qed.

(** X22. Every Item the aggregator returns bears the id of a platform of
    the configuration for which a source class is registered, and has a
    title that is not empty and a timestamp. *)
Theorem aggregated_items_are_tagged (config platforms : list (string * pyval))
    (w w' : world) (items : list NewsItem) :
  sources_json = inr (PDict config) ->
  dict_lookup "platforms" config = Some (PDict platforms) ->
  fetch_all_news w = (inr items, w') ->
  Forall (fun it => from_platform platforms it
                    /\ truthy (title it) = true /\ timestamp it <> None) items.
Proof.
  intros Hj Hp H. rewrite (fetch_all_news_loop config platforms w Hj Hp) in H.
  eapply (for_invariant_in _ platforms platform_step); [|constructor|exact H].
  intros x acc w0 r w0' Hin Hacc Hb.
  eapply platform_step_keeps; eassumption.
Qed.

(* ================================================================== *)
(** ** Extraction from pages *)

Lemma page_loop (title_of : element -> option string)
    (body : element -> list NewsItem -> M (list NewsItem)) (w : world)
    (nodes : list element) :
  (forall n acc,
     body n acc w = (inr (acc ++ emitted body n w), w)
     /\ map title (emitted body n w) = node_titles title_of [n]
     /\ Forall (fun it => content it = PStr "") (emitted body n w)) ->
  exists items,
    for_ nodes body [] w = (inr items, w)
    /\ map title items = node_titles title_of nodes
    /\ Forall (fun it => content it = PStr "") items.
Proof.
  intros Hb. exists (flat_map (fun n => emitted body n w) nodes).
  split; [|split].
  - apply (for_collect (emitted body) nodes body w).
    apply Forall_forall. intros n _ acc. apply (Hb n acc).
  - induction nodes as [|n ns IH]; [reflexivity|].
    simpl. rewrite map_app, IH.
    destruct (Hb n []) as [_ [Ht _]]. rewrite Ht. unfold node_titles. simpl.
    rewrite app_nil_r. reflexivity.
  - induction nodes as [|n ns IH]; [constructor|].
    simpl. apply Forall_app. split; [|exact IH].
    destruct (Hb n []) as [_ [_ Hc]]. exact Hc.
Qed.

Ltac page_body :=
  intros n acc; unfold emitted, node_titles, bind, ret, datetime_now;
  cbn [flat_map option_map];
  repeat match goal with
         | |- context [select_one ?s ?n] => destruct (select_one s n)
         | |- context [find_post_name ?n] => destruct (find_post_name n)
         end;
  cbn [option_map];
  try match goal with
      | |- context [(?t =? "")%string] => destruct (t =? "")%string
      end;
  repeat split; rewrite ?app_nil_r; try reflexivity; repeat constructor.

(** X23. An HTML-kind source returns one Item for each node of the page
    that has the title element with a text that is not empty, in the order
    of the page, with that text as title and an empty content; the nodes
    without the element or with an empty text are left out. *)
Theorem html_one_item_per_titled_node (self : NewsSource) (u : pyval)
    (w w1 : world) (html : string) (run : M (list NewsItem)) (selector : string)
    (title_of : element -> option string) :
  html_page self u run selector title_of ->
  fetch u PNone w = (inr (PStr html), w1) ->
  exists items,
    run w = (inr items, w1)
    /\ map title items
       = node_titles title_of (select selector (soup_of_str html))
    /\ Forall (fun it => content it = PStr "") items.
Proof.
  intros [ | | | ] Hf;
    unfold Hupu_fetch_html, HackerNews_fetch_html, ProductHunt_fetch_html,
           GitHub_fetch_html, bind at 1; rewrite Hf;
    unfold lift, bind at 1; cbn [BeautifulSoup];
    apply page_loop; page_body.
Qed.

(* ================================================================== *)
(** ** [fetch()] of an API-kind source, response by response *)






(* ================================================================== *)
(** ** Hrefs and origins *)

Lemma url_loop (title_of : element -> option string) (url_of : element -> string)
    (body : element -> list NewsItem -> M (list NewsItem)) (w : world)
    (nodes : list element) :
  (forall n acc,
     body n acc w = (inr (acc ++ emitted body n w), w)
     /\ map url (emitted body n w)
        = if titled title_of n then [PStr (url_of n)] else []) ->
  exists items,
    for_ nodes body [] w = (inr items, w)
    /\ map url items
       = map (fun n => PStr (url_of n)) (filter (titled title_of) nodes).
Proof.
  intros Hb. exists (flat_map (fun n => emitted body n w) nodes). split.
  - apply (for_collect (emitted body) nodes body w).
    apply Forall_forall. intros n _ acc. apply (Hb n acc).
  - induction nodes as [|n ns IH]; [reflexivity|].
    simpl. rewrite map_app, IH.
    destruct (Hb n []) as [_ ->].
    destruct (titled title_of n); reflexivity.
Qed.

Ltac url_body :=
  intros n acc; unfold emitted, titled, with_origin, bind, ret, datetime_now;
  cbn [option_map];
  repeat match goal with
         | |- context [select_one ?s ?n] => destruct (select_one s n)
         | |- context [find_post_name ?n] => destruct (find_post_name n)
         end;
  cbn [option_map];
  try match goal with
      | |- context [(?t =? "")%string] => destruct (t =? "")%string
      end;
  split; rewrite ?app_nil_r; reflexivity.

(** X14. Hupu and GitHub give the Item of a node the href of its title
    link, with their origin in front when the href is not empty and does
    not start with "http", and as it is otherwise; ProductHunt gives its
    origin followed by the href of the post link, and the empty string
    when the node has no such link. So every url they give is empty or
    starts with "http". *)
Theorem hrefs_get_the_origin_in_front (self : NewsSource) (u : pyval)
    (w w1 : world) (html : string) (run : M (list NewsItem)) (selector : string)
    (title_of : element -> option string) (url_of : element -> string) :
  origin_page self u run selector title_of url_of ->
  fetch u PNone w = (inr (PStr html), w1) ->
  exists items,
    run w = (inr items, w1)
    /\ map url items
       = map (fun n => PStr (url_of n))
             (filter (titled title_of) (select selector (soup_of_str html)))
    /\ Forall absolute_or_empty items.
Proof.
  intros Hpage Hf.
  assert (Hr : rewrites_hrefs self u run)
    by (unfold rewrites_hrefs; destruct Hpage; auto).
  destruct (urls_absolute_or_empty self u w w1 html run Hr Hf)
    as [items' [Hrun' Habs]].
  assert (Hurls : exists items,
             run w = (inr items, w1)
             /\ map url items
                = map (fun n => PStr (url_of n))
                      (filter (titled title_of)
                              (select selector (soup_of_str html)))).
  { destruct Hpage;
      unfold Hupu_fetch_html, ProductHunt_fetch_html, GitHub_fetch_html,
             bind at 1; rewrite Hf;
      unfold lift, bind at 1; cbn [BeautifulSoup];
      apply url_loop; url_body. }
  destruct Hurls as [items [Hrun Hurls]].
  exists items. split; [exact Hrun|]. split; [exact Hurls|].
  rewrite Hrun in Hrun'. inversion Hrun'; subst. exact Habs.
Qed.

End Program.

(* ================================================================== *)
(** ** The program on the examples *)

Abbreviation run_source :=
  (NewsSource_fetch Fixture.http Fixture.str Fixture.node Fixture.soup_of_str
     Fixture.soup_of_other Fixture.select Fixture.select_one
     Fixture.find_post_name Fixture.node_text Fixture.node_text
     Fixture.get_attr).

Abbreviation run_all :=
  (fetch_all_news Fixture.http (inr (PDict Fixture.config)) Fixture.str
     Fixture.node Fixture.soup_of_str Fixture.soup_of_other Fixture.select
     Fixture.select_one Fixture.find_post_name Fixture.node_text
     Fixture.node_text Fixture.get_attr).

Abbreviation wallstreetcn :=
  (WallStreetCN_fetch_api Fixture.http Fixture.node Fixture.soup_of_str
     Fixture.soup_of_other Fixture.node_text).

Abbreviation sanitize :=
  (strip_html (list string) Fragment.soup_of_str Fragment.soup_of_other
     Fragment.get_text_sep_strip).

(** The first example of the specification: one Zhihu record gives one
    Item, with its title, url and content. *)
Example zhihu_end_to_end :
  run_source (Fixture.zhihu_source "https://zhihu/hot") Fixture.w0
  = (inr (Some [mkNewsItem (PStr "Example") (PStr "http://x") "zhihu" (PStr "i")
                           (PStr "c") (PStr "Body") (Some 1700000000%Z)]),
     Fixture.sent [(PStr "https://zhihu/hot", PNone)] 0).
Proof. vm_compute. reflexivity. Qed.

(** The second example of the specification: of two Hupu posts, the one
    with a title gives an Item, its href prefixed with the origin. *)
Example hupu_end_to_end :
  run_source (Fixture.html_source "hupu" "https://hupu/" Hupu) Fixture.w0
  = (inr (Some [mkNewsItem (PStr "Post A") (PStr "https://bbs.hupu.com/a") "hupu"
                           (PStr "i") (PStr "c") (PStr "") (Some 1700000000%Z)]),
     Fixture.sent [(PStr "https://hupu/", PNone)] 0).
Proof. vm_compute. reflexivity. Qed.

(** The titles the aggregator returns for the configuration of seven
    platforms: those of the three sources that work. *)
Example fetch_all_news_titles :
  match fst (run_all Fixture.w0) with
  | inr items => map title items
  | inl _ => []
  end
  = [PStr "Example"; PStr "Ask HN: What are you reading?"; PStr "First";
     PStr "Second"].
Proof. vm_compute. reflexivity. Qed.

Lemma fetch_all_news_isolates_failures_witness :
  run_all Fixture.w0
  = (inr (fst (thread (contribution Fixture.http Fixture.str Fixture.node
                         Fixture.soup_of_str Fixture.soup_of_other Fixture.select
                         Fixture.select_one Fixture.find_post_name
                         Fixture.node_text Fixture.node_text Fixture.get_attr)
                      Fixture.platforms Fixture.w0)),
     snd (thread (contribution Fixture.http Fixture.str Fixture.node
                    Fixture.soup_of_str Fixture.soup_of_other Fixture.select
                    Fixture.select_one Fixture.find_post_name
                    Fixture.node_text Fixture.node_text Fixture.get_attr)
                 Fixture.platforms Fixture.w0)).
Proof.
  apply (fetch_all_news_isolates_failures Fixture.http (inr (PDict Fixture.config))
           Fixture.str Fixture.node Fixture.soup_of_str Fixture.soup_of_other
           Fixture.select Fixture.select_one Fixture.find_post_name
           Fixture.node_text Fixture.node_text Fixture.get_attr
           Fixture.config Fixture.platforms Fixture.w0).
  - reflexivity.
  - reflexivity.
  - repeat constructor.
Defined.



(** The three endpoints of the example, the second of which meets a server
    that fails: the Items of the first and of the third are returned. *)
Example wallstreetcn_titles :
  match fst (wallstreetcn Fixture.wallstreetcn_source (PDict Fixture.endpoints) Fixture.w0) with
  | inr items => map title items
  | inl _ => []
  end
  = [PStr "Markets rally"; PStr "Rates"].
Proof. vm_compute. reflexivity. Qed.


Lemma disabled_source_fetches_nothing_witness :
  run_source (mkNewsSource "zhihu" (PStr "n") (PStr "i") (PStr "api") (PStr "c")
                           (PBool false) (Zhihu (PStr "https://zhihu/hot")))
             Fixture.w0
  = (inr (Some []), Fixture.w0).
Proof.
  apply (disabled_source_fetches_nothing Fixture.http Fixture.str Fixture.node
           Fixture.soup_of_str Fixture.soup_of_other Fixture.select
           Fixture.select_one Fixture.find_post_name Fixture.node_text
           Fixture.node_text Fixture.get_attr).
  reflexivity.
Defined.

Lemma unknown_type_fetches_nothing_witness :
  run_source (mkNewsSource "zhihu" (PStr "n") (PStr "i") (PStr "rss") (PStr "c")
                           (PBool true) (Zhihu (PStr "https://zhihu/hot")))
             Fixture.w0
  = (inr (Some []), Fixture.w0).
Proof.
  apply (unknown_type_fetches_nothing Fixture.http Fixture.str Fixture.node
           Fixture.soup_of_str Fixture.soup_of_other Fixture.select
           Fixture.select_one Fixture.find_post_name Fixture.node_text
           Fixture.node_text Fixture.get_attr);
    reflexivity.
Defined.

Lemma fetch_third_attempt_wins_witness :
  fetch (Fixture.flaky (mkResponse 200 None "<html>up again</html>"))
        (PStr "https://hn/") PNone Fixture.w0
  = (inr (PStr "<html>up again</html>"),
     Fixture.sent [(PStr "https://hn/", PNone); (PStr "https://hn/", PNone);
           (PStr "https://hn/", PNone)] 4).
Proof.
  apply (fetch_third_attempt_wins
           (Fixture.flaky (mkResponse 200 None "<html>up again</html>"))
           (PStr "https://hn/") PNone Fixture.w0
           (mkResponse 200 None "<html>up again</html>"));
    reflexivity.
Defined.

Lemma sspai_url_is_record_id_witness :
  exists items,
    Sspai_fetch_api Fixture.http Fixture.sspai_source (PStr "https://sspai/feed")
                    (PDict []) Fixture.w0
    = (inr items,
       Fixture.sent [(PStr "https://sspai/feed",
              PDict [("created_at", PInt 1700000000)])] 0)
    /\ map url items = [PInt 12345; PStr ""].
Proof.
  apply (sspai_url_is_record_id Fixture.http Fixture.sspai_source
           (PStr "https://sspai/feed") Fixture.w0
           (Fixture.sent [(PStr "https://sspai/feed",
                   PDict [("created_at", PInt 1700000000)])] 0)
           []
           [("data",
             PList [PDict [("id", PInt 12345); ("title", PStr "First");
                           ("summary", PStr "S")];
                    PDict [("id", PInt 7)];
                    PDict [("title", PStr "Second")]])]
           [PDict [("id", PInt 12345); ("title", PStr "First");
                   ("summary", PStr "S")];
            PDict [("id", PInt 7)];
            PDict [("title", PStr "Second")]]).
  - vm_compute. reflexivity.
  - reflexivity.
  - repeat constructor.
Defined.

(** C6, where the code departs from it: the Hacker News page whose story
    links to the relative [item?id=1]. The url of the Item is that href as
    it stands, with no origin in front, whereas Hupu and GitHub put their
    origin in front of such an href. *)
Theorem hackernews_relative_href_not_rewritten :
  startswith "item?id=1" "http" = false
  /\ run_source (Fixture.html_source "hackernews" "https://hn/" HackerNews) Fixture.w0
     = (inr (Some [mkNewsItem (PStr "Ask HN: What are you reading?")
                              (PStr "item?id=1") "hackernews" (PStr "i")
                              (PStr "c") (PStr "") (Some 1700000000%Z)]),
        Fixture.sent [(PStr "https://hn/", PNone)] 0).
Proof. vm_compute. split; reflexivity. Qed.

(** C8, refuted as stated: on a fragment whose markup is written with
    character references, a first pass decodes the references and a second
    pass removes the tags they spelled. *)
Lemma strip_html_not_idempotent :
  sanitize (PStr "&lt;b&gt;hi&lt;/b&gt;") = inr "<b>hi</b>"
  /\ sanitize (PStr "<b>hi</b>") = inr "hi".
Proof. vm_compute. split; reflexivity. Qed.

Lemma strip_html_idempotent_on_plain_text_witness :
  sanitize (PStr "<p>Markets   rally</p> <b>today</b>") = inr "Markets rally today"
  /\ sanitize (PStr "Markets rally today") = inr "Markets rally today".
Proof.
  destruct (strip_html_idempotent_on_plain_text (list string)
              Fragment.soup_of_str Fragment.soup_of_other
              Fragment.get_text_sep_strip
              "<p>Markets   rally</p> <b>today</b>") as [y [H1 H2]].
  assert (Hy : y = "Markets rally today").
  { vm_compute in H1. injection H1 as <-. reflexivity. }
  subst y. split; [exact H1|]. apply H2. vm_compute. reflexivity.
Defined.

(* ================================================================== *)
(** ** The edges on the examples *)

Abbreviation edge_source :=
  (NewsSource_fetch Fixture.edge_http Fixture.str Fixture.node
     Fixture.soup_of_str Fixture.soup_of_other Fixture.select
     Fixture.select_one Fixture.find_post_name Fixture.node_text
     Fixture.node_text Fixture.get_attr).

Abbreviation aggregate :=
  (fun platforms =>
     fetch_all_news Fixture.http (inr (PDict [("platforms", PDict platforms)]))
       Fixture.str Fixture.node Fixture.soup_of_str Fixture.soup_of_other
       Fixture.select Fixture.select_one Fixture.find_post_name
       Fixture.node_text Fixture.node_text Fixture.get_attr).

Abbreviation contribution_of :=
  (contribution Fixture.http Fixture.str Fixture.node Fixture.soup_of_str
     Fixture.soup_of_other Fixture.select Fixture.select_one
     Fixture.find_post_name Fixture.node_text Fixture.node_text
     Fixture.get_attr).

Lemma fetch_gives_up_after_three_failures_witness :
  fetch Fixture.http (PStr "https://thepaper/") PNone Fixture.w0
  = (inl (RetryError (Failed_to_fetch (PStr "https://thepaper/") (HTTPError 500))),
     Fixture.sent [(PStr "https://thepaper/", PNone);
                   (PStr "https://thepaper/", PNone);
                   (PStr "https://thepaper/", PNone)] 4).
Proof.
  apply (fetch_gives_up_after_three_failures Fixture.http
           (PStr "https://thepaper/") PNone Fixture.w0); reflexivity.
Defined.

Lemma fetch_returns_first_success_witness :
  fetch (Fixture.down_once (mkResponse 200 (Some (PList [])) ""))
        (PStr "https://hn/") PNone Fixture.w0
  = (inr (PList []),
     Fixture.sent [(PStr "https://hn/", PNone); (PStr "https://hn/", PNone)] 2).
Proof.
  apply (fetch_returns_first_success
           (Fixture.down_once (mkResponse 200 (Some (PList [])) ""))
           1 (PStr "https://hn/") PNone Fixture.w0
           (mkResponse 200 (Some (PList [])) "")).
  - lia.
  - intros j Hj. assert (j = 0)%nat by lia. subst j. reflexivity.
  - reflexivity.
  - reflexivity.
Defined.

Lemma constructor_needs_its_keys_witness :
  HupuSource (Fixture.source_config "html" []) Fixture.w0
  = (inl (KeyError "url"), Fixture.w0).
Proof.
  apply (constructor_needs_its_keys "hupu" HupuSource
           [("name", PStr "n"); ("icon", PStr "i"); ("type", PStr "html");
            ("category", PStr "c")] Fixture.w0).
  simpl. auto 10.
Defined.

Lemma transport_failure_reaches_caller_witness :
  ThePaper_fetch_api Fixture.http Fixture.str Fixture.thepaper_source
                     (PStr "https://thepaper/") Fixture.w0
  = (inl (RetryError (Failed_to_fetch (PStr "https://thepaper/") (HTTPError 500))),
     Fixture.sent [(PStr "https://thepaper/", PNone);
                   (PStr "https://thepaper/", PNone);
                   (PStr "https://thepaper/", PNone)] 4).
Proof.
  apply (transport_failure_reaches_caller Fixture.http Fixture.str
           Fixture.thepaper_source Fixture.w0 _ (PStr "https://thepaper/") PNone).
  - apply request_thepaper.
  - vm_compute. reflexivity.
Defined.

Lemma response_without_data_gives_nothing_witness :
  Zhihu_fetch_api Fixture.edge_http (Fixture.zhihu_source "https://zhihu/busy")
                  (PStr "https://zhihu/busy") Fixture.w0
  = (inr [], Fixture.sent [(PStr "https://zhihu/busy", PNone)] 0).
Proof.
  apply (response_without_data_gives_nothing Fixture.edge_http Fixture.str
           (Fixture.zhihu_source "https://zhihu/busy") Fixture.w0 _
           (PStr "https://zhihu/busy") PNone _ [("error", PStr "busy")]).
  - apply request_zhihu.
  - vm_compute. reflexivity.
  - reflexivity.
Defined.

Lemma response_of_other_shape_witness :
  Zhihu_fetch_api Fixture.edge_http
                  (Fixture.zhihu_source "https://zhihu/maintenance")
                  (PStr "https://zhihu/maintenance") Fixture.w0
  = (inl TypeError, Fixture.sent [(PStr "https://zhihu/maintenance", PNone)] 0).
Proof.
  apply (response_of_other_shape Fixture.edge_http Fixture.str
           (Fixture.zhihu_source "https://zhihu/maintenance") Fixture.w0
           (Fixture.sent [(PStr "https://zhihu/maintenance", PNone)] 0)
           (PStr "https://zhihu/maintenance") PNone _
           (PStr "<html>no data today</html>")).
  - apply request_zhihu.
  - vm_compute. reflexivity.
  - reflexivity.
Defined.

Lemma parse_endpoint_gives_nothing_witness :
  WallStreetCN_parse_endpoint Fixture.node Fixture.soup_of_str
    Fixture.soup_of_other Fixture.node_text Fixture.wallstreetcn_source
    "flash"
    (PDict [("data", PDict [("items", PList [PDict [("content", PStr "x")]])])])
    Fixture.w0
  = (inr [], Fixture.w0).
Proof.
  apply parse_endpoint_gives_nothing. right.
  exists [("items", PList [PDict [("content", PStr "x")]])].
  split; [reflexivity|]. right. repeat split; discriminate.
Defined.

Lemma wallstreetcn_absorbs_request_and_parse_errors_witness :
  wallstreetcn Fixture.wallstreetcn_source (PDict Fixture.endpoints) Fixture.w0
  = (inr (fst (thread (endpoint_contribution Fixture.http Fixture.node
                         Fixture.soup_of_str Fixture.soup_of_other
                         Fixture.node_text Fixture.wallstreetcn_source)
                      Fixture.endpoints Fixture.w0)),
     snd (thread (endpoint_contribution Fixture.http Fixture.node
                    Fixture.soup_of_str Fixture.soup_of_other
                    Fixture.node_text Fixture.wallstreetcn_source)
                 Fixture.endpoints Fixture.w0)).
Proof.
  apply wallstreetcn_absorbs_request_and_parse_errors. repeat constructor.
Defined.

Lemma endpoint_without_url_aborts_witness :
  wallstreetcn Fixture.wallstreetcn_source (PDict Fixture.endpoints_no_url)
               Fixture.w0
  = (inl (KeyError "url"), Fixture.sent [(PStr "https://wscn/live", PDict [])] 0).
Proof.
  apply (endpoint_without_url_aborts Fixture.http Fixture.node
           Fixture.soup_of_str Fixture.soup_of_other Fixture.node_text
           Fixture.wallstreetcn_source
           [("live", PDict [("url", PStr "https://wscn/live")])]
           [("hot", PDict [("url", PStr "https://wscn/hot")])]
           "news" (PDict [("params", PDict [("limit", PInt 20)])]) Fixture.w0).
  - repeat constructor.
  - reflexivity.
Defined.

Lemma every_item_is_of_its_source_witness :
  Forall (item_of (Fixture.zhihu_source "https://zhihu/hot"))
         [mkNewsItem (PStr "Example") (PStr "http://x") "zhihu" (PStr "i")
                     (PStr "c") (PStr "Body") (Some 1700000000%Z)].
Proof.
  apply (every_item_is_of_its_source Fixture.http Fixture.str Fixture.node
           Fixture.soup_of_str Fixture.soup_of_other Fixture.select
           Fixture.select_one Fixture.find_post_name Fixture.node_text
           Fixture.node_text Fixture.get_attr
           (Fixture.zhihu_source "https://zhihu/hot") Fixture.w0
           (Fixture.sent [(PStr "https://zhihu/hot", PNone)] 0)
           (Some [mkNewsItem (PStr "Example") (PStr "http://x") "zhihu" (PStr "i")
                             (PStr "c") (PStr "Body") (Some 1700000000%Z)])).
  vm_compute. reflexivity.
Defined.

Lemma thepaper_url_from_cont_id_witness :
  exists items,
    ThePaper_fetch_api Fixture.edge_http Fixture.str Fixture.thepaper_source
                       (PStr "https://thepaper/ok") Fixture.w0
    = (inr items, Fixture.sent [(PStr "https://thepaper/ok", PNone)] 0)
    /\ map url items
       = [PStr "https://www.thepaper.cn/newsDetail_forward_123"; PStr ""]
    /\ Forall (fun it => content it = PStr "") items.
Proof.
  apply (thepaper_url_from_cont_id Fixture.edge_http Fixture.str
           Fixture.thepaper_source (PStr "https://thepaper/ok") Fixture.w0
           (Fixture.sent [(PStr "https://thepaper/ok", PNone)] 0)
           [("data",
             PDict [("hotNews",
                     PList [PDict [("name", PStr "Budget");
                                   ("contId", PStr "123")];
                            PDict [("name", PStr "Weather")];
                            PDict [("contId", PStr "9")]])])]
           [("hotNews",
             PList [PDict [("name", PStr "Budget"); ("contId", PStr "123")];
                    PDict [("name", PStr "Weather")];
                    PDict [("contId", PStr "9")]])]
           [PDict [("name", PStr "Budget"); ("contId", PStr "123")];
            PDict [("name", PStr "Weather")];
            PDict [("contId", PStr "9")]]).
  - vm_compute. reflexivity.
  - reflexivity.
  - reflexivity.
  - repeat constructor.
Defined.

Lemma zhihu_url_and_content_witness :
  exists items,
    Zhihu_fetch_api Fixture.http (Fixture.zhihu_source "https://zhihu/hot")
                    (PStr "https://zhihu/hot") Fixture.w0
    = (inr items, Fixture.sent [(PStr "https://zhihu/hot", PNone)] 0)
    /\ map url items = [PStr "http://x"]
    /\ map content items = [PStr "Body"].
Proof.
  apply (zhihu_url_and_content Fixture.http
           (Fixture.zhihu_source "https://zhihu/hot") (PStr "https://zhihu/hot")
           Fixture.w0 (Fixture.sent [(PStr "https://zhihu/hot", PNone)] 0)
           [("data", PList [Fixture.zhihu_untitled; Fixture.zhihu_record])]
           [Fixture.zhihu_untitled; Fixture.zhihu_record]).
  - vm_compute. reflexivity.
  - reflexivity.
  - repeat constructor; discriminate.
Defined.

Lemma sspai_params_must_be_object_witness :
  exists e,
    Sspai_fetch_api Fixture.http Fixture.sspai_source (PStr "https://sspai/feed")
                    (PStr "limit=10") Fixture.w0
    = (inl e, Fixture.w0).
Proof.
  apply (sspai_params_must_be_object Fixture.http). reflexivity.
Defined.

Lemma all_disabled_gives_nothing_witness :
  aggregate Fixture.platforms_off Fixture.w0 = (inr [], Fixture.w0).
Proof.
  apply (all_disabled_gives_nothing Fixture.http _ Fixture.str Fixture.node
           Fixture.soup_of_str Fixture.soup_of_other Fixture.select
           Fixture.select_one Fixture.find_post_name Fixture.node_text
           Fixture.node_text Fixture.get_attr
           [("platforms", PDict Fixture.platforms_off)] Fixture.platforms_off).
  - reflexivity.
  - reflexivity.
  - repeat constructor.
Defined.

Lemma platform_entry_must_be_object_witness :
  aggregate Fixture.platforms_null Fixture.w0
  = (inl (AttributeError "get"),
     printed (Fetched_items "zhihu" 1)
             (Fixture.sent [(PStr "https://zhihu/hot", PNone)] 0)).
Proof.
  apply (platform_entry_must_be_object Fixture.http _ Fixture.str Fixture.node
           Fixture.soup_of_str Fixture.soup_of_other Fixture.select
           Fixture.select_one Fixture.find_post_name Fixture.node_text
           Fixture.node_text Fixture.get_attr
           [("platforms", PDict Fixture.platforms_null)]
           [("zhihu", Fixture.source_config "api"
                        [("url", PStr "https://zhihu/hot")])]
           [("sspai", Fixture.source_config "api"
                        [("url", PStr "https://sspai/feed")])]
           "hupu" PNone Fixture.w0).
  - reflexivity.
  - reflexivity.
  - repeat constructor.
  - reflexivity.
Defined.

Lemma kind_mismatch_yields_nothing_witness :
  platform_step Fixture.http Fixture.str Fixture.node Fixture.soup_of_str
    Fixture.soup_of_other Fixture.select Fixture.select_one
    Fixture.find_post_name Fixture.node_text Fixture.node_text Fixture.get_attr
    ("zhihu", PDict Fixture.zhihu_as_html) [] Fixture.w0
  = (inr [], printed (Error_fetching_from "zhihu" TypeError) Fixture.w0).
Proof.
  apply (kind_mismatch_yields_nothing Fixture.http Fixture.str Fixture.node
           Fixture.soup_of_str Fixture.soup_of_other Fixture.select
           Fixture.select_one Fixture.find_post_name Fixture.node_text
           Fixture.node_text Fixture.get_attr "zhihu" "html" ZhihuSource).
  - simpl. auto.
  - reflexivity.
  - reflexivity.
  - reflexivity.
  - right. reflexivity.
  - discriminate.
Defined.

Lemma aggregated_items_are_tagged_witness :
  Forall (fun it => from_platform Fixture.platforms it
                    /\ truthy (title it) = true /\ timestamp it <> None)
         (match fst (run_all Fixture.w0) with
          | inr items => items
          | inl _ => []
          end).
Proof.
  destruct (run_all Fixture.w0) as [[e|items] w'] eqn:E.
  - vm_compute in E. discriminate E.
  - simpl.
    apply (aggregated_items_are_tagged Fixture.http (inr (PDict Fixture.config))
             Fixture.str Fixture.node Fixture.soup_of_str Fixture.soup_of_other
             Fixture.select Fixture.select_one Fixture.find_post_name
             Fixture.node_text Fixture.node_text Fixture.get_attr
             Fixture.config Fixture.platforms Fixture.w0 w' items).
    + reflexivity.
    + reflexivity.
    + exact E.
Defined.

Lemma html_one_item_per_titled_node_witness :
  exists items,
    Hupu_fetch_html Fixture.http Fixture.node Fixture.soup_of_str
      Fixture.soup_of_other Fixture.select Fixture.select_one Fixture.node_text
      Fixture.get_attr (Fixture.html_source "hupu" "https://hupu/" Hupu)
      (PStr "https://hupu/") Fixture.w0
    = (inr items, Fixture.sent [(PStr "https://hupu/", PNone)] 0)
    /\ map title items = [PStr "Post A"]
    /\ Forall (fun it => content it = PStr "") items.
Proof.
  apply (html_one_item_per_titled_node Fixture.http Fixture.node
           Fixture.soup_of_str Fixture.soup_of_other Fixture.select
           Fixture.select_one Fixture.find_post_name Fixture.node_text
           Fixture.get_attr (Fixture.html_source "hupu" "https://hupu/" Hupu)
           (PStr "https://hupu/") Fixture.w0
           (Fixture.sent [(PStr "https://hupu/", PNone)] 0) "<hupu>"
           _ "li.bbs-sl-web-post-body"
           (fun li => option_map Fixture.node_text
                                 (Fixture.select_one "a.p-title" li))).
  - apply page_hupu.
  - vm_compute. reflexivity.
Defined.

(* ================================================================== *)
(** ** One Item per well-formed record, on the examples *)



Lemma hrefs_get_the_origin_in_front_witness :
  exists items,
    Hupu_fetch_html Fixture.http Fixture.node Fixture.soup_of_str
      Fixture.soup_of_other Fixture.select Fixture.select_one Fixture.node_text
      Fixture.get_attr (Fixture.html_source "hupu" "https://hupu/" Hupu)
      (PStr "https://hupu/") Fixture.w0
    = (inr items, Fixture.sent [(PStr "https://hupu/", PNone)] 0)
    /\ map url items = [PStr "https://bbs.hupu.com/a"]
    /\ Forall absolute_or_empty items.
Proof.
  apply (hrefs_get_the_origin_in_front Fixture.http Fixture.node
           Fixture.soup_of_str Fixture.soup_of_other Fixture.select
           Fixture.select_one Fixture.find_post_name Fixture.node_text
           Fixture.get_attr (Fixture.html_source "hupu" "https://hupu/" Hupu)
           (PStr "https://hupu/") Fixture.w0
           (Fixture.sent [(PStr "https://hupu/", PNone)] 0) "<hupu>"
           _ "li.bbs-sl-web-post-body"
           (fun li => option_map Fixture.node_text
                                 (Fixture.select_one "a.p-title" li))
           (fun li => match Fixture.select_one "a.p-title" li with
                      | Some a_tag =>
                          with_origin "https://bbs.hupu.com"
                                      (href_of Fixture.node Fixture.get_attr a_tag)
                      | None => ""
                      end)).
  - apply origin_hupu.
  - vm_compute. reflexivity.
Defined.
